(** * NodeRenderer: the node-rendering layer of react-flow

    A shallow embedding of
    [packages/react/src/container/NodeRenderer/index.tsx]: the
    [NodeRenderer] coordinator, its [ResizeObserver] callback, and the
    memoised per-node [NodeComponentWrapper].

    Conventions of the embedding.
    - A possibly missing JavaScript value is an [optional]: [Undefined],
      [Null] or [Val a].
    - A JavaScript number is a [number]: NaN, the two infinities, or a
      finite value (every finite double is a rational; the source performs
      no arithmetic on numbers, only truthiness and nullish tests, and
      negative zero is identified with zero).
    - An object that is compared by reference ([Object.is]) is an [obj]:
      its reference next to its content.  Functions are known by their
      reference only.
    - An object indexed as a table ([o[key]]) is an [object]: its own
      properties and the members it inherits through its prototype chain.
    - Side effects (calls of [onError], calls of [updateNodeDimensions],
      construction and disconnection of the observer) are recorded, in
      order, in a list of [effect]s. *)

From Stdlib Require Import QArith Lia.
From stdpp Require Import base option list gmap strings.

Close Scope Q_scope.
Local Open Scope string_scope.
Local Open Scope list_scope.

(** ** JavaScript values *)

Inductive optional (A : Type) : Type :=
  | Undefined
  | Null
  | Val (a : A).
Arguments Undefined {A}.
Arguments Null {A}.
Arguments Val {A} a.

Inductive number : Type :=
  | NaN
  | NegInfinity
  | Finite (q : Q)
  | PosInfinity.

(** A value compared by reference: [obj_ref] is the identity of the
    object, [obj_val] what it holds. *)
Record obj (A : Type) : Type := Obj { obj_ref : positive; obj_val : A }.
Arguments Obj {A} obj_ref obj_val.
Arguments obj_ref {A} o.
Arguments obj_val {A} o.

(** A function value: only its identity is observable here. *)
Definition fn_ref : Type := positive.

(** [ToBoolean]: the truthiness of a value, as used by [!], [||], [&&]
    and [? :]. *)
Class ToBoolean (A : Type) : Type := to_boolean : A -> bool.

#[export] Instance bool_to_boolean : ToBoolean bool := fun b => b.

#[export] Instance number_to_boolean : ToBoolean number := fun n =>
  match n with
  | NaN => false
  | Finite q => negb (Qeq_bool q 0)
  | NegInfinity | PosInfinity => true
  end.

#[export] Instance string_to_boolean : ToBoolean string := fun s =>
  match s with
  | EmptyString => false
  | String _ _ => true
  end.

#[export] Instance obj_to_boolean {A} : ToBoolean (obj A) := fun _ => true.

#[export] Instance positive_to_boolean : ToBoolean positive := fun _ => true.

#[export] Instance optional_to_boolean {A} `{ToBoolean A} : ToBoolean (optional A) :=
  fun x =>
    match x with
    | Val a => to_boolean a
    | Undefined | Null => false
    end.

(** [x || y] and [x && y] at one type. *)
Definition js_or {A} `{ToBoolean A} (x y : A) : A :=
  if to_boolean x then x else y.

Definition js_and {A} `{ToBoolean A} (x y : A) : A :=
  if to_boolean x then y else x.

(** [x || d] where [d] is a definite value: the result is definite. *)
Definition js_or_else {A} `{ToBoolean A} (x : optional A) (d : A) : A :=
  match x with
  | Val a => if to_boolean a then a else d
  | Undefined | Null => d
  end.

(** [x ?? y]: [y] replaces [undefined] and [null] only. *)
Definition nullish {A} (x y : optional A) : optional A :=
  match x with
  | Val _ => x
  | Undefined | Null => y
  end.

(** [x ?? d] where [d] is a definite value. *)
Definition nullish_else {A} (x : optional A) (d : A) : A :=
  match x with
  | Val a => a
  | Undefined | Null => d
  end.

(** [x?.f]: [undefined] when [x] is [undefined] or [null]. *)
Definition chain {A B} (x : optional A) (f : A -> optional B) : optional B :=
  match x with
  | Val a => f a
  | Undefined | Null => Undefined
  end.

(** [typeof x === 'undefined']. *)
Definition typeof_undefined {A} (x : optional A) : bool :=
  match x with
  | Undefined => true
  | Null | Val _ => false
  end.

(** [!!x]. *)
Definition not_not {A} `{ToBoolean A} (x : A) : bool := negb (negb (to_boolean x)).

(** [Object.is] on the values that occur as props and selector results. *)
Class ObjectIs (A : Type) : Type := object_is : A -> A -> bool.

#[export] Instance bool_object_is : ObjectIs bool := Bool.eqb.
#[export] Instance string_object_is : ObjectIs string := String.eqb.
#[export] Instance positive_object_is : ObjectIs positive := Pos.eqb.
#[export] Instance obj_object_is {A} : ObjectIs (obj A) :=
  fun a b => Pos.eqb (obj_ref a) (obj_ref b).
#[export] Instance optional_object_is {A} `{ObjectIs A} : ObjectIs (optional A) :=
  fun a b =>
    match a, b with
    | Undefined, Undefined => true
    | Null, Null => true
    | Val x, Val y => object_is x y
    | _, _ => false
    end.

(** ** Numbers: comparison, [Math.max], [Math.min] *)

(** The order of two numbers; [None] when either is NaN. *)
Definition number_compare (a b : number) : option comparison :=
  match a, b with
  | NaN, _ | _, NaN => None
  | NegInfinity, NegInfinity => Some Eq
  | NegInfinity, _ => Some Lt
  | _, NegInfinity => Some Gt
  | PosInfinity, PosInfinity => Some Eq
  | PosInfinity, _ => Some Gt
  | _, PosInfinity => Some Lt
  | Finite p, Finite q => Some (Qcompare p q)
  end.

(** [a <= b]: false when either is NaN. *)
Definition number_le (a b : number) : bool :=
  match number_compare a b with
  | Some Lt | Some Eq => true
  | Some Gt | None => false
  end.

Definition Math_max (a b : number) : number :=
  match number_compare a b with
  | None => NaN
  | Some Lt => b
  | Some Eq | Some Gt => a
  end.

Definition Math_min (a b : number) : number :=
  match number_compare a b with
  | None => NaN
  | Some Gt => b
  | Some Eq | Some Lt => a
  end.

Definition zero : number := Finite 0.

(** ** Data model *)

(** [XYPosition], [NodeOrigin] ([[number, number]]) and the enum
    [Position] of [@xyflow/system]. *)
Record XYPosition : Type := { pos_x : number; pos_y : number }.

Definition NodeOrigin : Type := (number * number)%type.

Inductive Position : Type := Left | Top | Right | Bottom.

#[export] Instance XYPosition_to_boolean : ToBoolean XYPosition := fun _ => true.
#[export] Instance Position_to_boolean : ToBoolean Position := fun _ => true.

(** [CoordinateExtent]: a range per axis, each [(min, max)]. *)
Record CoordinateExtent : Type :=
  { extent_x : number * number; extent_y : number * number }.

(** A registered visual component, the inline style and the payload of a
    node are known by reference. *)
Definition Component : Type := positive.
Definition CSSProperties : Type := positive.
Definition NodeData : Type := positive.

(** [node.computed]. *)
Module Computed.
Record t : Type :=
  { width : optional number;
    height : optional number;
    positionAbsolute : optional XYPosition }.
End Computed.

(** [node[internalsSymbol]]. *)
Module Internals.
Record t : Type := { z : optional number; isParent : optional bool }.
End Internals.

(** The node record, with the fields the renderer reads. *)
Module Node.
Record t : Type :=
  { id : string;
    type : optional string;
    computed : optional Computed.t;
    width : optional number;
    height : optional number;
    origin : optional (obj NodeOrigin);
    draggable : optional bool;
    selectable : optional bool;
    connectable : optional bool;
    focusable : optional bool;
    selected : optional bool;
    hidden : optional bool;
    className : optional string;
    style : optional CSSProperties;
    data : NodeData;
    sourcePosition : optional Position;
    targetPosition : optional Position;
    dragHandle : optional string;
    internals : optional Internals.t;
    ariaLabel : optional string }.
End Node.

(** A DOM element: its identity and its attributes. *)
Record Element : Type :=
  { element_ref : positive; attributes : gmap string string }.

(** [element.getAttribute(name)]: [null] when the attribute is absent. *)
Definition getAttribute (e : Element) (name : string) : optional string :=
  match attributes e !! name with
  | Some v => Val v
  | None => Null
  end.

(** One staged dimension update.  The [id] is what [getAttribute]
    returned: the cast [as string] does nothing at run time. *)
Module Update.
Record t : Type :=
  { id : optional string; nodeElement : Element; forceUpdate : bool }.
End Update.

(** ** JavaScript [Map], in insertion order

    [set] on a key already present replaces the value and keeps the
    position of the key. *)
Section JSMap.
Context {K V : Type} `{EqDecision K}.

Fixpoint Map_set (m : list (K * V)) (k : K) (v : V) : list (K * V) :=
  match m with
  | [] => [(k, v)]
  | (k', v') :: m' =>
      if decide (k = k') then (k, v) :: m' else (k', v') :: Map_set m' k v
  end.

Fixpoint Map_get (m : list (K * V)) (k : K) : option V :=
  match m with
  | [] => None
  | (k', v') :: m' => if decide (k = k') then Some v' else Map_get m' k
  end.

Definition Map_keys (m : list (K * V)) : list K := fst <$> m.

End JSMap.

#[export] Instance optional_eq_dec {A} `{EqDecision A} : EqDecision (optional A).
Proof. solve_decision. Defined.

(** ** Effects *)

Inductive effect : Type :=
  | CallOnError (h : fn_ref) (code message : string)
  | CallUpdateNodeDimensions (f : fn_ref)
      (updates : list (optional string * Update.t))
  | NewResizeObserver (o : positive)
  | Disconnect (o : positive).

(** ** The store *)

(** [ReactFlowState], with the fields the renderer selects. *)
Module State.
Record t : Type :=
  { nodeLookup : gmap string (obj Node.t);
    nodesDraggable : bool;
    nodesConnectable : bool;
    nodesFocusable : bool;
    elementsSelectable : bool;
    updateNodeDimensions : fn_ref;
    onError : optional fn_ref }.
End State.

(** [map.get(key)] on the store's lookup: [undefined] when there is no
    entry. *)
Definition get {V} (m : gmap string V) (key : string) : optional V :=
  match m !! key with
  | Some v => Val v
  | None => Undefined
  end.

(** A JavaScript object read as a table.  [o[key]] finds an own property
    of [o] first and, failing that, a member that [o] inherits through its
    prototype chain; it is [undefined] only when neither exists. *)
Record object (V : Type) : Type :=
  { own : gmap string V; inherited : gmap string V }.
Arguments own {V} o.
Arguments inherited {V} o.

Definition read {V} (o : object V) (key : string) : optional V :=
  match own o !! key with
  | Some v => Val v
  | None =>
      match inherited o !! key with
      | Some v => Val v
      | None => Undefined
      end
  end.

(** The members of [Object.prototype], each known by a reference: what an
    object written as a literal inherits. *)
Definition Object_prototype : gmap string positive :=
  list_to_map
    [ ("constructor", 1001%positive);
      ("hasOwnProperty", 1002%positive);
      ("isPrototypeOf", 1003%positive);
      ("propertyIsEnumerable", 1004%positive);
      ("toLocaleString", 1005%positive);
      ("toString", 1006%positive);
      ("valueOf", 1007%positive);
      ("__proto__", 1008%positive);
      ("__defineGetter__", 1009%positive);
      ("__defineSetter__", 1010%positive);
      ("__lookupGetter__", 1011%positive);
      ("__lookupSetter__", 1012%positive) ].

(** The object literal with the given own properties. *)
Definition literal (properties : gmap string positive) : object positive :=
  {| own := properties; inherited := Object_prototype |}.

(** ** Props *)

(** [NodeRendererProps]. *)
Module NodeRendererProps.
Record t : Type :=
  { onNodeClick : optional fn_ref;
    onNodeDoubleClick : optional fn_ref;
    onNodeMouseEnter : optional fn_ref;
    onNodeMouseMove : optional fn_ref;
    onNodeMouseLeave : optional fn_ref;
    onNodeContextMenu : optional fn_ref;
    onlyRenderVisibleElements : bool;
    noPanClassName : optional string;
    noDragClassName : optional string;
    rfId : optional string;
    disableKeyboardA11y : optional bool;
    nodeOrigin : optional (obj NodeOrigin);
    nodeExtent : optional (obj CoordinateExtent);
    nodeTypes : obj (object Component) }.
End NodeRendererProps.

(** The props of [NodeComponentWrapper]. *)
Module Props.
Record t : Type :=
  { id : string;
    nodeExtent : optional (obj CoordinateExtent);
    nodeTypes : obj (object Component);
    nodeOrigin : optional (obj NodeOrigin);
    onNodeClick : optional fn_ref;
    onNodeMouseEnter : optional fn_ref;
    onNodeMouseMove : optional fn_ref;
    onNodeMouseLeave : optional fn_ref;
    onNodeContextMenu : optional fn_ref;
    onNodeDoubleClick : optional fn_ref;
    noDragClassName : optional string;
    noPanClassName : optional string;
    rfId : optional string;
    disableKeyboardA11y : optional bool;
    resizeObserver : optional positive;
    nodesDraggable : bool;
    nodesConnectable : bool;
    nodesFocusable : bool;
    elementsSelectable : bool;
    onError : optional fn_ref }.
End Props.

(** [WrapNodeProps]: what the visual component receives. *)
Module WrapNodeProps.
Record t : Type :=
  { id : string;
    className : optional string;
    style : optional CSSProperties;
    width : optional number;
    height : optional number;
    type : string;
    data : NodeData;
    sourcePosition : Position;
    targetPosition : Position;
    hidden : optional bool;
    xPos : number;
    yPos : number;
    xPosOrigin : number;
    yPosOrigin : number;
    positionAbsolute : XYPosition;
    onClick : optional fn_ref;
    onMouseEnter : optional fn_ref;
    onMouseMove : optional fn_ref;
    onMouseLeave : optional fn_ref;
    onContextMenu : optional fn_ref;
    onDoubleClick : optional fn_ref;
    selected : bool;
    isDraggable : bool;
    isSelectable : bool;
    isConnectable : bool;
    isFocusable : bool;
    resizeObserver : optional positive;
    dragHandle : optional string;
    zIndex : number;
    isParent : bool;
    noDragClassName : optional string;
    noPanClassName : optional string;
    initialized : bool;
    rfId : optional string;
    disableKeyboardA11y : optional bool;
    ariaLabel : optional string }.
End WrapNodeProps.

(** What a render returns: [null], or one element with its component
    (the JSX tag), its key and its props. *)
Inductive ReactNode : Type :=
  | RenderNull
  | RenderElement (component : optional Component) (key : string)
      (props : WrapNodeProps.t).

(** ** Geometry helpers of [@xyflow/system] *)

Definition clamp (val lo hi : number) : number :=
  Math_min (Math_max val lo) hi.

(** Modelled from the spec: [clampPosition] of [@xyflow/system] is imported
    by the renderer and is not among the sources.  The spec gives it as the
    pure helper [clamp(position, extent) -> position] that clamps a position
    into the extent rectangle, and has a missing absolute position default
    to [(0,0)]; the renderer hands the possibly missing position to the
    helper, which therefore applies that default before it clamps. *)
Definition clampPosition (position : optional XYPosition)
    (extent : CoordinateExtent) : XYPosition :=
  let position := nullish_else position {| pos_x := zero; pos_y := zero |} in
  {| pos_x := clamp (pos_x position) (fst (extent_x extent)) (snd (extent_x extent));
     pos_y := clamp (pos_y position) (fst (extent_y extent)) (snd (extent_y extent)) |}.

(** The argument of [getPositionWithOrigin]. *)
Module OriginArgs.
Record t : Type :=
  { x : number;
    y : number;
    width : number;
    height : number;
    origin : optional (obj NodeOrigin) }.
End OriginArgs.

(** ** [NodeComponentWrapper] *)

Section Presenter.

(** [errorMessages['error003']] and [getPositionWithOrigin] come from
    [@xyflow/system]; the renderer is embedded for any such pair. *)
Variable error003 : string -> string.
Variable getPositionWithOrigin : OriginArgs.t -> XYPosition.

(** The store selector of the wrapper: [(s) => s.nodeLookup.get(props.id)]. *)
Definition node_selector (props : Props.t) (s : State.t) : optional (obj Node.t) :=
  get (State.nodeLookup s) (Props.id props).

(** [node.type || 'default']. *)
Definition resolved_type (node : Node.t) : string :=
  js_or_else (Node.type node) "default".

(** The four capability flags:
    [!!(node.f || (props.g && typeof node.f === 'undefined'))]. *)
Definition capability (nodeValue : optional bool) (collectionDefault : bool) : bool :=
  not_not (js_or nodeValue (Val (js_and collectionDefault (typeof_undefined nodeValue)))).

(** [props.nodeExtent ? clampPosition(node.computed?.positionAbsolute,
    props.nodeExtent) : node.computed?.positionAbsolute]. *)
Definition clampedPosition (props : Props.t) (node : Node.t) : optional XYPosition :=
  let positionAbsolute := chain (Node.computed node) Computed.positionAbsolute in
  match Props.nodeExtent props with
  | Val extent => Val (clampPosition positionAbsolute (obj_val extent))
  | Undefined | Null => positionAbsolute
  end.

Definition posX (props : Props.t) (node : Node.t) : number :=
  nullish_else (chain (clampedPosition props node) (fun p => Val (pos_x p))) zero.

Definition posY (props : Props.t) (node : Node.t) : number :=
  nullish_else (chain (clampedPosition props node) (fun p => Val (pos_y p))) zero.

(** The record handed to [getPositionWithOrigin]. *)
Definition originArgs (props : Props.t) (node : Node.t) : OriginArgs.t :=
  {| OriginArgs.x := posX props node;
     OriginArgs.y := posY props node;
     OriginArgs.width :=
       nullish_else
         (nullish (chain (Node.computed node) Computed.width) (Node.width node))
         zero;
     OriginArgs.height :=
       nullish_else
         (nullish (chain (Node.computed node) Computed.height) (Node.height node))
         zero;
     OriginArgs.origin := js_or (Node.origin node) (Props.nodeOrigin props) |}.

Definition posOrigin (props : Props.t) (node : Node.t) : XYPosition :=
  getPositionWithOrigin (originArgs props node).

(** [(!!node.computed?.width && !!node.computed?.height) ||
     (!!node.width && !!node.height)]. *)
Definition initialized (node : Node.t) : bool :=
  js_or
    (js_and (not_not (chain (Node.computed node) Computed.width))
            (not_not (chain (Node.computed node) Computed.height)))
    (js_and (not_not (Node.width node)) (not_not (Node.height node))).

(** The body of the memoised component, given the state the store holds
    when it renders.  It returns what is rendered and the effects of the
    render, in order. *)
Definition NodeComponentWrapper (s : State.t) (props : Props.t)
    : ReactNode * list effect :=
  match node_selector props s with
  | Undefined | Null => (RenderNull, [])
  | Val node_object =>
      let node := obj_val node_object in
      let nodeTypes := obj_val (Props.nodeTypes props) in
      let unknown := negb (to_boolean (read nodeTypes (resolved_type node))) in
      let effects :=
        if unknown then
          match Props.onError props with
          | Val onError => [CallOnError onError "003" (error003 (resolved_type node))]
          | Undefined | Null => []
          end
        else [] in
      let nodeType := if unknown then "default" else resolved_type node in
      let NodeComponent := js_or (read nodeTypes nodeType) (read nodeTypes "default") in
      let clamped := clampedPosition props node in
      (RenderElement NodeComponent (Node.id node)
         {| WrapNodeProps.id := Node.id node;
            WrapNodeProps.className := Node.className node;
            WrapNodeProps.style := Node.style node;
            WrapNodeProps.width := nullish (Node.width node) Undefined;
            WrapNodeProps.height := nullish (Node.height node) Undefined;
            WrapNodeProps.type := nodeType;
            WrapNodeProps.data := Node.data node;
            WrapNodeProps.sourcePosition := js_or_else (Node.sourcePosition node) Bottom;
            WrapNodeProps.targetPosition := js_or_else (Node.targetPosition node) Top;
            WrapNodeProps.hidden := Node.hidden node;
            WrapNodeProps.xPos := posX props node;
            WrapNodeProps.yPos := posY props node;
            WrapNodeProps.xPosOrigin := pos_x (posOrigin props node);
            WrapNodeProps.yPosOrigin := pos_y (posOrigin props node);
            WrapNodeProps.positionAbsolute :=
              js_or_else clamped {| pos_x := zero; pos_y := zero |};
            WrapNodeProps.onClick := Props.onNodeClick props;
            WrapNodeProps.onMouseEnter := Props.onNodeMouseEnter props;
            WrapNodeProps.onMouseMove := Props.onNodeMouseMove props;
            WrapNodeProps.onMouseLeave := Props.onNodeMouseLeave props;
            WrapNodeProps.onContextMenu := Props.onNodeContextMenu props;
            WrapNodeProps.onDoubleClick := Props.onNodeDoubleClick props;
            WrapNodeProps.selected := not_not (Node.selected node);
            WrapNodeProps.isDraggable :=
              capability (Node.draggable node) (Props.nodesDraggable props);
            WrapNodeProps.isSelectable :=
              capability (Node.selectable node) (Props.elementsSelectable props);
            WrapNodeProps.isConnectable :=
              capability (Node.connectable node) (Props.nodesConnectable props);
            WrapNodeProps.isFocusable :=
              capability (Node.focusable node) (Props.nodesFocusable props);
            WrapNodeProps.resizeObserver := Props.resizeObserver props;
            WrapNodeProps.dragHandle := Node.dragHandle node;
            WrapNodeProps.zIndex :=
              nullish_else (chain (Node.internals node) Internals.z) zero;
            WrapNodeProps.isParent :=
              not_not (chain (Node.internals node) Internals.isParent);
            WrapNodeProps.noDragClassName := Props.noDragClassName props;
            WrapNodeProps.noPanClassName := Props.noPanClassName props;
            WrapNodeProps.initialized := initialized node;
            WrapNodeProps.rfId := Props.rfId props;
            WrapNodeProps.disableKeyboardA11y := Props.disableKeyboardA11y props;
            WrapNodeProps.ariaLabel := Node.ariaLabel node |},
       effects)
  end.

End Presenter.

(** ** [NodeRenderer] *)

(** What [selector] picks from the store. *)
Module Slice.
Record t : Type :=
  { nodesDraggable : bool;
    nodesConnectable : bool;
    nodesFocusable : bool;
    elementsSelectable : bool;
    updateNodeDimensions : fn_ref;
    onError : optional fn_ref }.
End Slice.

Definition selector (s : State.t) : Slice.t :=
  {| Slice.nodesDraggable := State.nodesDraggable s;
     Slice.nodesConnectable := State.nodesConnectable s;
     Slice.nodesFocusable := State.nodesFocusable s;
     Slice.elementsSelectable := State.elementsSelectable s;
     Slice.updateNodeDimensions := State.updateNodeDimensions s;
     Slice.onError := State.onError s |}.

(** A [ResizeObserverEntry]: only its [target] is read. *)
Record ResizeObserverEntry : Type := { target : Element }.

(** The callback given to [new ResizeObserver]: it stages one update per
    entry in a fresh [Map] and hands the map to the [updateNodeDimensions]
    it has closed over. *)
Definition stage (updates : list (optional string * Update.t))
    (entry : ResizeObserverEntry) : list (optional string * Update.t) :=
  let id := getAttribute (target entry) "data-id" in
  Map_set updates id
    {| Update.id := id; Update.nodeElement := target entry; Update.forceUpdate := true |}.

Definition staged_updates (entries : list ResizeObserverEntry)
    : list (optional string * Update.t) :=
  foldl stage [] entries.

Definition observer_callback (updateNodeDimensions : fn_ref)
    (entries : list ResizeObserverEntry) : list effect :=
  let updates := staged_updates entries in
  [CallUpdateNodeDimensions updateNodeDimensions updates].

(** The runtime: whether [ResizeObserver] is defined, and the reference
    the next constructed object gets. *)
Record Runtime : Type := { ResizeObserver_defined : bool; fresh_ref : positive }.

(** What React keeps for one mounted [NodeRenderer]: the cell of
    [useMemo(..., [])] (empty before the first render), the [current] of
    [useRef()], and the [updateNodeDimensions] the observer callback has
    closed over. *)
Module Hooks.
Record t : Type :=
  { memo : option (optional positive);
    resizeObserverRef : optional positive;
    closure : optional fn_ref }.
End Hooks.

Definition initial_hooks : Hooks.t :=
  {| Hooks.memo := None; Hooks.resizeObserverRef := Undefined; Hooks.closure := Undefined |}.

(** [useMemo(() => { ... }, [])]: the factory runs when the cell is
    empty, and never again. *)
Definition useMemo_resizeObserver (rt : Runtime) (updateNodeDimensions : fn_ref)
    (h : Hooks.t) : optional positive * Hooks.t * list effect :=
  match Hooks.memo h with
  | Some resizeObserver => (resizeObserver, h, [])
  | None =>
      if negb (ResizeObserver_defined rt) then
        (Null,
         {| Hooks.memo := Some Null;
            Hooks.resizeObserverRef := Hooks.resizeObserverRef h;
            Hooks.closure := Hooks.closure h |},
         [])
      else
        let observer := fresh_ref rt in
        (Val observer,
         {| Hooks.memo := Some (Val observer);
            Hooks.resizeObserverRef := Val observer;
            Hooks.closure := Val updateNodeDimensions |},
         [NewResizeObserver observer])
  end.

(** The props of the wrapper rendered for [nodeId]. *)
Definition child_props (props : NodeRendererProps.t) (slice : Slice.t)
    (resizeObserver : optional positive) (nodeId : string) : Props.t :=
  {| Props.id := nodeId;
     Props.nodeTypes := NodeRendererProps.nodeTypes props;
     Props.nodeExtent := NodeRendererProps.nodeExtent props;
     Props.nodeOrigin := NodeRendererProps.nodeOrigin props;
     Props.onNodeClick := NodeRendererProps.onNodeClick props;
     Props.onNodeMouseEnter := NodeRendererProps.onNodeMouseEnter props;
     Props.onNodeMouseMove := NodeRendererProps.onNodeMouseMove props;
     Props.onNodeMouseLeave := NodeRendererProps.onNodeMouseLeave props;
     Props.onNodeContextMenu := NodeRendererProps.onNodeContextMenu props;
     Props.onNodeDoubleClick := NodeRendererProps.onNodeDoubleClick props;
     Props.noDragClassName := NodeRendererProps.noDragClassName props;
     Props.noPanClassName := NodeRendererProps.noPanClassName props;
     Props.rfId := NodeRendererProps.rfId props;
     Props.disableKeyboardA11y := NodeRendererProps.disableKeyboardA11y props;
     Props.resizeObserver := resizeObserver;
     Props.nodesDraggable := Slice.nodesDraggable slice;
     Props.nodesConnectable := Slice.nodesConnectable slice;
     Props.nodesFocusable := Slice.nodesFocusable slice;
     Props.elementsSelectable := Slice.elementsSelectable slice;
     Props.onError := Slice.onError slice |}.

(** One render of [NodeRenderer].  [nodeIds] is what [useVisibleNodesIds]
    returned for this render.  The result is the new hook state, the
    children in order (each keyed by its [id]) and the effects. *)
Definition NodeRenderer (rt : Runtime) (h : Hooks.t) (s : State.t)
    (nodeIds : list string) (props : NodeRendererProps.t)
    : Hooks.t * list Props.t * list effect :=
  let slice := selector s in
  let '(resizeObserver, h', effects) :=
    useMemo_resizeObserver rt (Slice.updateNodeDimensions slice) h in
  (h', child_props props slice resizeObserver <$> nodeIds, effects).

(** The cleanup of [useEffect(..., [])], run when the component unmounts:
    [resizeObserverRef?.current?.disconnect()]. *)
Definition unmount (h : Hooks.t) : list effect :=
  match Hooks.resizeObserverRef h with
  | Val observer => [Disconnect observer]
  | Undefined | Null => []
  end.

(** What happens to a mounted [NodeRenderer]: it renders again, or the
    browser delivers a batch of entries to the observer it constructed. *)
Inductive event : Type :=
  | Render (rt : Runtime) (s : State.t) (nodeIds : list string)
      (props : NodeRendererProps.t)
  | Measure (entries : list ResizeObserverEntry).

Definition step (h : Hooks.t) (e : event)
    : Hooks.t * option (list Props.t) * list effect :=
  match e with
  | Render rt s nodeIds props =>
      let '(h', children, effects) := NodeRenderer rt h s nodeIds props in
      (h', Some children, effects)
  | Measure entries =>
      match Hooks.resizeObserverRef h, Hooks.closure h with
      | Val _, Val updateNodeDimensions =>
          (h, None, observer_callback updateNodeDimensions entries)
      | _, _ => (h, None, [])
      end
  end.

(** The renders and the effects of a run of events, from a hook state. *)
Fixpoint run (h : Hooks.t) (events : list event)
    : Hooks.t * list (list Props.t) * list effect :=
  match events with
  | [] => (h, [], [])
  | e :: events' =>
      let '(h1, rendered, effects1) := step h e in
      let '(h2, renders, effects2) := run h1 events' in
      (h2, from_option (fun c => [c]) [] rendered ++ renders, effects1 ++ effects2)
  end.

(** A whole life outside [StrictMode]: the first render (the mount), the
    events that follow, and the unmount. *)
Definition lifetime (rt : Runtime) (s : State.t) (nodeIds : list string)
    (props : NodeRendererProps.t) (events : list event)
    : list (list Props.t) * list effect :=
  let '(h, renders, effects) := run initial_hooks (Render rt s nodeIds props :: events) in
  (renders, effects ++ unmount h).

(** ** When a component renders again

    [NodeRenderer] is exported through [memo] and reads the store through
    two hooks; [NodeComponentWrapper] is wrapped in [memo] and reads the
    store through one. *)

(** [shallow] of zustand on two slices: every field by [Object.is]. *)
Definition shallow (a b : Slice.t) : bool :=
  object_is (Slice.nodesDraggable a) (Slice.nodesDraggable b)
  && object_is (Slice.nodesConnectable a) (Slice.nodesConnectable b)
  && object_is (Slice.nodesFocusable a) (Slice.nodesFocusable b)
  && object_is (Slice.elementsSelectable a) (Slice.elementsSelectable b)
  && object_is (Slice.updateNodeDimensions a) (Slice.updateNodeDimensions b)
  && object_is (Slice.onError a) (Slice.onError b).

(** The comparison [memo] makes of the previous and the next props: every
    prop by [Object.is]. *)
Definition NodeRendererProps_equal (a b : NodeRendererProps.t) : bool :=
  object_is (NodeRendererProps.onNodeClick a) (NodeRendererProps.onNodeClick b)
  && object_is (NodeRendererProps.onNodeDoubleClick a) (NodeRendererProps.onNodeDoubleClick b)
  && object_is (NodeRendererProps.onNodeMouseEnter a) (NodeRendererProps.onNodeMouseEnter b)
  && object_is (NodeRendererProps.onNodeMouseMove a) (NodeRendererProps.onNodeMouseMove b)
  && object_is (NodeRendererProps.onNodeMouseLeave a) (NodeRendererProps.onNodeMouseLeave b)
  && object_is (NodeRendererProps.onNodeContextMenu a) (NodeRendererProps.onNodeContextMenu b)
  && object_is (NodeRendererProps.onlyRenderVisibleElements a)
       (NodeRendererProps.onlyRenderVisibleElements b)
  && object_is (NodeRendererProps.noPanClassName a) (NodeRendererProps.noPanClassName b)
  && object_is (NodeRendererProps.noDragClassName a) (NodeRendererProps.noDragClassName b)
  && object_is (NodeRendererProps.rfId a) (NodeRendererProps.rfId b)
  && object_is (NodeRendererProps.disableKeyboardA11y a) (NodeRendererProps.disableKeyboardA11y b)
  && object_is (NodeRendererProps.nodeOrigin a) (NodeRendererProps.nodeOrigin b)
  && object_is (NodeRendererProps.nodeExtent a) (NodeRendererProps.nodeExtent b)
  && object_is (NodeRendererProps.nodeTypes a) (NodeRendererProps.nodeTypes b).

Definition Props_equal (a b : Props.t) : bool :=
  object_is (Props.id a) (Props.id b)
  && object_is (Props.nodeExtent a) (Props.nodeExtent b)
  && object_is (Props.nodeTypes a) (Props.nodeTypes b)
  && object_is (Props.nodeOrigin a) (Props.nodeOrigin b)
  && object_is (Props.onNodeClick a) (Props.onNodeClick b)
  && object_is (Props.onNodeMouseEnter a) (Props.onNodeMouseEnter b)
  && object_is (Props.onNodeMouseMove a) (Props.onNodeMouseMove b)
  && object_is (Props.onNodeMouseLeave a) (Props.onNodeMouseLeave b)
  && object_is (Props.onNodeContextMenu a) (Props.onNodeContextMenu b)
  && object_is (Props.onNodeDoubleClick a) (Props.onNodeDoubleClick b)
  && object_is (Props.noDragClassName a) (Props.noDragClassName b)
  && object_is (Props.noPanClassName a) (Props.noPanClassName b)
  && object_is (Props.rfId a) (Props.rfId b)
  && object_is (Props.disableKeyboardA11y a) (Props.disableKeyboardA11y b)
  && object_is (Props.resizeObserver a) (Props.resizeObserver b)
  && object_is (Props.nodesDraggable a) (Props.nodesDraggable b)
  && object_is (Props.nodesConnectable a) (Props.nodesConnectable b)
  && object_is (Props.nodesFocusable a) (Props.nodesFocusable b)
  && object_is (Props.elementsSelectable a) (Props.elementsSelectable b)
  && object_is (Props.onError a) (Props.onError b).

(** Modelled from the spec: the hook [useStore] of [hooks/useStore] is not
    among the sources.  The spec gives the store read contract: a selector
    from the global state to a derived value, run again on every state
    change, and an equality function that gates whether the component
    renders again.  Without an equality function the selected values are
    compared by identity. *)
Definition useStore_rerenders {T} (select : State.t -> T)
    (equalityFn : T -> T -> bool) (s s' : State.t) : bool :=
  negb (equalityFn (select s) (select s')).

Section Subscriptions.

(** The ids the external culling yields for a state, with and without the
    restriction to the viewport. *)
Variable visibleNodeIds : bool -> State.t -> list string.

(** Modelled from the spec: the hook [useVisibleNodesIds] of
    [hooks/useVisibleNodes] is not among the sources.  The spec has it yield
    the current ids to render, parameterised by the only-visible flag, and
    has its subscriber render again only when the membership of that list
    changes. *)
Definition useVisibleNodesIds (onlyRenderVisibleElements : bool) (s : State.t)
    : list string :=
  visibleNodeIds onlyRenderVisibleElements s.

Definition useVisibleNodesIds_rerenders (onlyRenderVisibleElements : bool)
    (s s' : State.t) : bool :=
  negb (bool_decide
    (list_to_set (useVisibleNodesIds onlyRenderVisibleElements s) =@{gset string}
     list_to_set (useVisibleNodesIds onlyRenderVisibleElements s'))).

(** [NodeRenderer] renders again when its parent hands it props that
    [memo] finds changed, when its slice of the store is not [shallow]
    equal to the previous one, or when the id list changed. *)
Definition NodeRenderer_rerenders (props props' : NodeRendererProps.t)
    (s s' : State.t) : bool :=
  negb (NodeRendererProps_equal props props')
  || useStore_rerenders selector shallow s s'
  || useVisibleNodesIds_rerenders
       (NodeRendererProps.onlyRenderVisibleElements props') s s'.

(** A mounted [NodeComponentWrapper] renders again when [NodeRenderer]
    rendered and handed it props that [memo] finds changed, or when the
    node object its selector returns is another one. *)
Definition NodeComponentWrapper_rerenders (parent_rendered : bool)
    (props props' : Props.t) (s s' : State.t) : bool :=
  (parent_rendered && negb (Props_equal props props'))
  || useStore_rerenders (node_selector props') object_is s s'.

End Subscriptions.

(** ** The spec's formulas and vocabulary *)

(** The spec's capability formula:
    [node.value === undefined ? collectionDefault : !!node.value]. *)
Definition effective (nodeValue : optional bool) (collectionDefault : bool) : bool :=
  match nodeValue with
  | Undefined => collectionDefault
  | Null | Val _ => not_not nodeValue
  end.

(** The spec's reading of the resolved type name: [node.type] if present,
    else ["default"]. *)
Definition type_if_present (node : Node.t) : string :=
  nullish_else (Node.type node) "default".

(** [message] contains [name]. *)
Definition mentions (message name : string) : Prop :=
  exists before after : string,
    message = String.append before (String.append name after).

(** The spec's size rule: the computed value if available, else the
    authored one, else zero. *)
Definition size_of (computed authored : optional number) : number :=
  match computed with
  | Val c => c
  | Undefined | Null =>
      match authored with
      | Val a => a
      | Undefined | Null => zero
      end
  end.

(** The spec's origin rule: the node's own origin if present, else the
    collection-wide one. *)
Definition origin_of (own collection : optional (obj NodeOrigin))
    : optional (obj NodeOrigin) :=
  match own with
  | Val o => Val o
  | Undefined | Null => collection
  end.

(** [position] lies in the rectangle [extent]. *)
Definition inside (position : XYPosition) (extent : CoordinateExtent) : bool :=
  number_le (fst (extent_x extent)) (pos_x position)
  && number_le (pos_x position) (snd (extent_x extent))
  && number_le (fst (extent_y extent)) (pos_y position)
  && number_le (pos_y position) (snd (extent_y extent)).

Definition origin_position : XYPosition := {| pos_x := zero; pos_y := zero |}.

(** The update staged for one entry. *)
Definition staged (entry : ResizeObserverEntry) : Update.t :=
  {| Update.id := getAttribute (target entry) "data-id";
     Update.nodeElement := target entry;
     Update.forceUpdate := true |}.

(** The last entry of a batch whose element carries the id [id]. *)
Definition last_entry_for (id : optional string)
    (entries : list ResizeObserverEntry) : option ResizeObserverEntry :=
  last (filter (fun entry => getAttribute (target entry) "data-id" = id) entries).

(** The observers constructed, the observers disconnected and the error
    reports in a sequence of effects. *)
Definition constructed (trace : list effect) : list positive :=
  omap (fun e => match e with NewResizeObserver o => Some o | _ => None end) trace.

Definition disconnected (trace : list effect) : list positive :=
  omap (fun e => match e with Disconnect o => Some o | _ => None end) trace.

Definition reported (trace : list effect) : list (fn_ref * string * string) :=
  omap (fun e =>
    match e with
    | CallOnError h code message => Some (h, code, message)
    | _ => None
    end) trace.

Definition store_writes (trace : list effect)
    : list (fn_ref * list (optional string * Update.t)) :=
  omap (fun e =>
    match e with
    | CallUpdateNodeDimensions f updates => Some (f, updates)
    | _ => None
    end) trace.

(** The store replaces the record of one node and leaves the rest. *)
Definition replace_node (s : State.t) (nodeId : string) (node : obj Node.t) : State.t :=
  {| State.nodeLookup := <[nodeId := node]> (State.nodeLookup s);
     State.nodesDraggable := State.nodesDraggable s;
     State.nodesConnectable := State.nodesConnectable s;
     State.nodesFocusable := State.nodesFocusable s;
     State.elementsSelectable := State.elementsSelectable s;
     State.updateNodeDimensions := State.updateNodeDimensions s;
     State.onError := State.onError s |}.

(** ** Sample data *)

Definition plain_node (id : string) : Node.t :=
  {| Node.id := id;
     Node.type := Undefined;
     Node.computed := Undefined;
     Node.width := Undefined;
     Node.height := Undefined;
     Node.origin := Undefined;
     Node.draggable := Undefined;
     Node.selectable := Undefined;
     Node.connectable := Undefined;
     Node.focusable := Undefined;
     Node.selected := Undefined;
     Node.hidden := Undefined;
     Node.className := Undefined;
     Node.style := Undefined;
     Node.data := 1%positive;
     Node.sourcePosition := Undefined;
     Node.targetPosition := Undefined;
     Node.dragHandle := Undefined;
     Node.internals := Undefined;
     Node.ariaLabel := Undefined |}.

Definition with_type (node : Node.t) (type : optional string) : Node.t :=
  {| Node.id := Node.id node;
     Node.type := type;
     Node.computed := Node.computed node;
     Node.width := Node.width node;
     Node.height := Node.height node;
     Node.origin := Node.origin node;
     Node.draggable := Node.draggable node;
     Node.selectable := Node.selectable node;
     Node.connectable := Node.connectable node;
     Node.focusable := Node.focusable node;
     Node.selected := Node.selected node;
     Node.hidden := Node.hidden node;
     Node.className := Node.className node;
     Node.style := Node.style node;
     Node.data := Node.data node;
     Node.sourcePosition := Node.sourcePosition node;
     Node.targetPosition := Node.targetPosition node;
     Node.dragHandle := Node.dragHandle node;
     Node.internals := Node.internals node;
     Node.ariaLabel := Node.ariaLabel node |}.

Definition with_geometry (node : Node.t) (computed : optional Computed.t)
    (width height : optional number) : Node.t :=
  {| Node.id := Node.id node;
     Node.type := Node.type node;
     Node.computed := computed;
     Node.width := width;
     Node.height := height;
     Node.origin := Node.origin node;
     Node.draggable := Node.draggable node;
     Node.selectable := Node.selectable node;
     Node.connectable := Node.connectable node;
     Node.focusable := Node.focusable node;
     Node.selected := Node.selected node;
     Node.hidden := Node.hidden node;
     Node.className := Node.className node;
     Node.style := Node.style node;
     Node.data := Node.data node;
     Node.sourcePosition := Node.sourcePosition node;
     Node.targetPosition := Node.targetPosition node;
     Node.dragHandle := Node.dragHandle node;
     Node.internals := Node.internals node;
     Node.ariaLabel := Node.ariaLabel node |}.

Definition at_position (px py : Q) : optional Computed.t :=
  Val {| Computed.width := Undefined;
         Computed.height := Undefined;
         Computed.positionAbsolute := Val {| pos_x := Finite px; pos_y := Finite py |} |}.

(** The spec's first scenario: node [n1] of type ["custom"], 100 by 50, at
    [(10,20)]. *)
Definition n1 : Node.t :=
  with_geometry (with_type (plain_node "n1") (Val "custom"))
    (at_position 10 20) (Val (Finite 100)) (Val (Finite 50)).

(** A registry with the ["default"] entry only. *)
Definition default_only : obj (object Component) :=
  Obj 20%positive (literal {[ "default" := 21%positive ]}).

Definition sample_renderer_props (nodeExtent : optional (obj CoordinateExtent))
    : NodeRendererProps.t :=
  {| NodeRendererProps.onNodeClick := Undefined;
     NodeRendererProps.onNodeDoubleClick := Undefined;
     NodeRendererProps.onNodeMouseEnter := Undefined;
     NodeRendererProps.onNodeMouseMove := Undefined;
     NodeRendererProps.onNodeMouseLeave := Undefined;
     NodeRendererProps.onNodeContextMenu := Undefined;
     NodeRendererProps.onlyRenderVisibleElements := false;
     NodeRendererProps.noPanClassName := Val "nopan";
     NodeRendererProps.noDragClassName := Val "nodrag";
     NodeRendererProps.rfId := Val "1";
     NodeRendererProps.disableKeyboardA11y := Val false;
     NodeRendererProps.nodeOrigin := Undefined;
     NodeRendererProps.nodeExtent := nodeExtent;
     NodeRendererProps.nodeTypes := default_only |}.

Definition sample_state (nodes : gmap string (obj Node.t)) : State.t :=
  {| State.nodeLookup := nodes;
     State.nodesDraggable := true;
     State.nodesConnectable := true;
     State.nodesFocusable := true;
     State.elementsSelectable := true;
     State.updateNodeDimensions := 30%positive;
     State.onError := Val 31%positive |}.

Definition sample_props (s : State.t) (nodeExtent : optional (obj CoordinateExtent))
    (nodeId : string) : Props.t :=
  child_props (sample_renderer_props nodeExtent) (selector s) Null nodeId.

(** The extent of the spec's scenario, [{x:[0,100], y:[0,100]}], and one
    that leaves the origin outside. *)
Definition extent_0_100 : CoordinateExtent :=
  {| extent_x := (Finite 0, Finite 100); extent_y := (Finite 0, Finite 100) |}.

Definition extent_10_100 : CoordinateExtent :=
  {| extent_x := (Finite 10, Finite 100); extent_y := (Finite 10, Finite 100) |}.

Definition sample_error003 (nodeType : string) : string :=
  String.append "Node type " (String.append nodeType " not found").

Definition sample_getPositionWithOrigin (a : OriginArgs.t) : XYPosition :=
  {| pos_x := OriginArgs.x a; pos_y := OriginArgs.y a |}.

Definition element (ref : positive) (id : option string) : Element :=
  {| element_ref := ref;
     attributes := match id with Some i => {[ "data-id" := i ]} | None => ∅ end |}.

Definition sample_visibleNodeIds (onlyRenderVisibleElements : bool) (s : State.t)
    : list string :=
  (map_to_list (State.nodeLookup s)).*1.

(** The hook state once the observer [o] exists, and once the first
    render found no [ResizeObserver]. *)
Definition hooks_with (o : positive) (f : fn_ref) : Hooks.t :=
  {| Hooks.memo := Some (Val o);
     Hooks.resizeObserverRef := Val o;
     Hooks.closure := Val f |}.

Definition hooks_without : Hooks.t :=
  {| Hooks.memo := Some Null;
     Hooks.resizeObserverRef := Undefined;
     Hooks.closure := Undefined |}.

(** Every wrapper of every render was handed [resizeObserver]. *)
Definition all_children_given (resizeObserver : optional positive)
    (renders : list (list Props.t)) : Prop :=
  Forall (Forall (fun p => Props.resizeObserver p = resizeObserver)) renders.

(** A batch of three entries; the last two elements carry no [data-id]. *)
Definition sample_batch : list ResizeObserverEntry :=
  [ {| target := element 1 (Some "a") |};
    {| target := element 2 None |};
    {| target := element 3 None |} ].

(** A store with two nodes, and the same store after the record of [n2]
    was replaced. *)
Definition two_nodes : State.t :=
  sample_state {[ "n1" := Obj 5%positive n1; "n2" := Obj 6%positive (plain_node "n2") ]}.

Definition n2_moved : obj Node.t :=
  Obj 8%positive (with_geometry (plain_node "n2") (at_position 3 4) Undefined Undefined).

(** ** One pass over the tree

    In a pass React renders the coordinator and shows, for each child it
    returned, in order, what the wrapper of that child renders against the
    state the store holds.  [render_pass] gives the hook state after the
    pass, the slots shown and the effects of the coordinator's own render.
    The effects of the wrappers are not part of it: after the mount, [memo]
    decides which wrappers run again. *)

Section Pass.

Variable error003 : string -> string.
Variable getPositionWithOrigin : OriginArgs.t -> XYPosition.

Definition render_pass (rt : Runtime) (h : Hooks.t) (s : State.t)
    (nodeIds : list string) (props : NodeRendererProps.t)
    : Hooks.t * list ReactNode * list effect :=
  let '(h', children, effects) := NodeRenderer rt h s nodeIds props in
  let rendered := NodeComponentWrapper error003 getPositionWithOrigin s <$> children in
  (h', rendered.*1, effects).

(** The mount of the tree outside [StrictMode]: the coordinator renders
    once from empty hooks, and then every wrapper it returned renders once,
    in order.  The result is the slots and all the effects of the mount. *)
Definition mount_pass (rt : Runtime) (s : State.t) (nodeIds : list string)
    (props : NodeRendererProps.t) : list ReactNode * list effect :=
  let '(_, children, effects) := NodeRenderer rt initial_hooks s nodeIds props in
  let rendered := NodeComponentWrapper error003 getPositionWithOrigin s <$> children in
  (rendered.*1, effects ++ concat rendered.*2).

(** The report the mount owes for one id: none when the store has no
    record for it or reading the registry at its resolved type finds
    something. *)
Definition owed_report (registry : object Component) (onError : fn_ref)
    (s : State.t) (nodeId : string) : option (fn_ref * string * string) :=
  match State.nodeLookup s !! nodeId with
  | Some node =>
      match read registry (resolved_type (obj_val node)) with
      | Val _ => None
      | Undefined | Null =>
          Some (onError, "003", error003 (resolved_type (obj_val node)))
      end
  | None => None
  end.

End Pass.

(** The ids read from the elements of a batch, in order. *)
Definition entry_ids (entries : list ResizeObserverEntry) : list (optional string) :=
  (fun entry => getAttribute (target entry) "data-id") <$> entries.

(** Each value once, in the order of its first occurrence. *)
Definition first_occurrences {A} `{EqDecision A} (l : list A) : list A :=
  reverse (remove_dups (reverse l)).

(** The number of batches delivered in a run of events. *)
Fixpoint measurements (events : list event) : nat :=
  match events with
  | [] => 0
  | Measure _ :: events' => S (measurements events')
  | Render _ _ _ _ :: events' => measurements events'
  end.

(** A registry that also knows ["custom"]. *)
Definition with_custom : obj (object Component) :=
  Obj 22%positive (literal {[ "default" := 21%positive; "custom" := 23%positive ]}).

(** ** [StrictMode]

    Under [StrictMode], a development build of React 18 calls the body of a
    mounting component twice, each time from empty hooks, and keeps the hooks
    of the second call; after the mount it runs the cleanup of every effect
    once and sets the effect up again.  Later renders and the unmount are as
    outside [StrictMode] (the second call of a later render finds the memo
    cell full and has no effect). *)

(** The runtime as the second call finds it: the next constructed object
    gets the next reference. *)
Definition next_runtime (rt : Runtime) : Runtime :=
  {| ResizeObserver_defined := ResizeObserver_defined rt;
     fresh_ref := Pos.succ (fresh_ref rt) |}.

Definition strict_lifetime (rt : Runtime) (s : State.t) (nodeIds : list string)
    (props : NodeRendererProps.t) (events : list event)
    : list (list Props.t) * list effect :=
  let '(_, _, discarded) := NodeRenderer rt initial_hooks s nodeIds props in
  let '(h0, children, kept) :=
    NodeRenderer (next_runtime rt) initial_hooks s nodeIds props in
  let remount := unmount h0 in
  let '(h, renders, effects) := run h0 events in
  (children :: renders, discarded ++ kept ++ remount ++ effects ++ unmount h).

(** ** What the coordinator passes down *)

(** Every input the coordinator passes down to a wrapper besides the id is
    the same, by [Object.is], in two renders of the coordinator: its own
    props but [onlyRenderVisibleElements], the flags and the error callback
    of its slice, and the observer. *)
Definition passed_down_equal (props props' : NodeRendererProps.t)
    (slice slice' : Slice.t) (resizeObserver resizeObserver' : optional positive) : bool :=
  object_is (NodeRendererProps.nodeExtent props) (NodeRendererProps.nodeExtent props')
  && object_is (NodeRendererProps.nodeTypes props) (NodeRendererProps.nodeTypes props')
  && object_is (NodeRendererProps.nodeOrigin props) (NodeRendererProps.nodeOrigin props')
  && object_is (NodeRendererProps.onNodeClick props) (NodeRendererProps.onNodeClick props')
  && object_is (NodeRendererProps.onNodeMouseEnter props)
       (NodeRendererProps.onNodeMouseEnter props')
  && object_is (NodeRendererProps.onNodeMouseMove props)
       (NodeRendererProps.onNodeMouseMove props')
  && object_is (NodeRendererProps.onNodeMouseLeave props)
       (NodeRendererProps.onNodeMouseLeave props')
  && object_is (NodeRendererProps.onNodeContextMenu props)
       (NodeRendererProps.onNodeContextMenu props')
  && object_is (NodeRendererProps.onNodeDoubleClick props)
       (NodeRendererProps.onNodeDoubleClick props')
  && object_is (NodeRendererProps.noDragClassName props)
       (NodeRendererProps.noDragClassName props')
  && object_is (NodeRendererProps.noPanClassName props)
       (NodeRendererProps.noPanClassName props')
  && object_is (NodeRendererProps.rfId props) (NodeRendererProps.rfId props')
  && object_is (NodeRendererProps.disableKeyboardA11y props)
       (NodeRendererProps.disableKeyboardA11y props')
  && object_is resizeObserver resizeObserver'
  && object_is (Slice.nodesDraggable slice) (Slice.nodesDraggable slice')
  && object_is (Slice.nodesConnectable slice) (Slice.nodesConnectable slice')
  && object_is (Slice.nodesFocusable slice) (Slice.nodesFocusable slice')
  && object_is (Slice.elementsSelectable slice) (Slice.elementsSelectable slice')
  && object_is (Slice.onError slice) (Slice.onError slice').

(** ** The message of error 003 *)

Definition quote : string := String (Ascii.ascii_of_nat 34) EmptyString.

(** Modelled from the spec: the table [errorMessages] of [@xyflow/system]
    is not among the sources.  The spec has the unknown-node-type error carry
    the offending type name, in a message that references it; the entry
    [error003] is modelled as a message that quotes the name it is given. *)
Definition errorMessages_error003 (nodeType : string) : string :=
  String.append "Node type "
    (String.append quote
       (String.append nodeType
          (String.append quote " not found. Using fallback type default."))).

(** A store with the error callback removed. *)
Definition without_onError (s : State.t) : State.t :=
  {| State.nodeLookup := State.nodeLookup s;
     State.nodesDraggable := State.nodesDraggable s;
     State.nodesConnectable := State.nodesConnectable s;
     State.nodesFocusable := State.nodesFocusable s;
     State.elementsSelectable := State.elementsSelectable s;
     State.updateNodeDimensions := State.updateNodeDimensions s;
     State.onError := Undefined |}.

(** A store that holds the one node [nodeId] of type [type]. *)
Definition one_node (nodeId : string) (type : optional string) : State.t :=
  sample_state {[ nodeId := Obj 6%positive (with_type (plain_node nodeId) type) ]}.

(** * Properties *)

(** ** Numbers and clamping *)

Lemma number_compare_antisym (a b : number) :
  number_compare b a = CompOpp <$> number_compare a b.
Proof.
  destruct a, b; cbn; try reflexivity.
  by rewrite Qcompare_antisym.
Qed.

Lemma Math_max_of_le (v lo : number) : number_le lo v = true -> Math_max v lo = v.
Proof.
  unfold number_le, Math_max. rewrite (number_compare_antisym lo v).
  destruct (number_compare lo v) as [[]|]; cbn; congruence.
Qed.

Lemma Math_min_of_le (v hi : number) : number_le v hi = true -> Math_min v hi = v.
Proof.
  unfold number_le, Math_min.
  destruct (number_compare v hi) as [[]|]; cbn; congruence.
Qed.

Lemma clamp_inside (v lo hi : number) :
  number_le lo v = true -> number_le v hi = true -> clamp v lo hi = v.
Proof.
  intros Hlo Hhi. unfold clamp. by rewrite Math_max_of_le, Math_min_of_le.
Qed.

Lemma clampPosition_inside (position : XYPosition) (extent : CoordinateExtent) :
  inside position extent = true -> clampPosition (Val position) extent = position.
Proof.
  unfold inside. rewrite !andb_true_iff. intros [[[Hx1 Hx2] Hy1] Hy2].
  destruct position as [px py]. unfold clampPosition; cbn in *.
  by rewrite !clamp_inside.
Qed.

(** ** The per-node presenter *)

(** Opens a render of a node that the store holds. *)
Ltac open_render Hnode Hrender :=
  unfold NodeComponentWrapper in Hrender;
  rewrite Hnode in Hrender;
  inversion Hrender; subst; clear Hrender; cbn.

(** Exhibits the element rendered for a node that the store holds. *)
Ltac found_render Hnode :=
  unfold NodeComponentWrapper; rewrite Hnode;
  eexists _, _, _; split; [reflexivity | cbn].

Lemma capability_effective (nodeValue : optional bool) (collectionDefault : bool) :
  capability nodeValue collectionDefault = effective nodeValue collectionDefault.
Proof. destruct nodeValue as [| |[]], collectionDefault; reflexivity. Qed.

(** C2.  For every node the store holds, the wrapper renders an element,
    and each of the four capability flags handed to the visual component is
    the spec's formula of the node's own value and the collection-wide
    flag: the collection-wide flag when the own value is undefined, the own
    value coerced to a boolean otherwise.  The expression of the code,
    [!!(node.f || (flag && typeof node.f === 'undefined'))], agrees with
    [node.f === undefined ? flag : !!node.f] on every value. *)
Theorem capability_flags_resolved
    (error003 : string -> string) (getPositionWithOrigin : OriginArgs.t -> XYPosition)
    (s : State.t) (props : Props.t) (node : obj Node.t) :
  node_selector props s = Val node ->
  exists component out effects,
    NodeComponentWrapper error003 getPositionWithOrigin s props
      = (RenderElement component (Node.id (obj_val node)) out, effects)
    /\ WrapNodeProps.isDraggable out
        = effective (Node.draggable (obj_val node)) (Props.nodesDraggable props)
    /\ WrapNodeProps.isSelectable out
        = effective (Node.selectable (obj_val node)) (Props.elementsSelectable props)
    /\ WrapNodeProps.isConnectable out
        = effective (Node.connectable (obj_val node)) (Props.nodesConnectable props)
    /\ WrapNodeProps.isFocusable out
        = effective (Node.focusable (obj_val node)) (Props.nodesFocusable props).
Proof.
  intros Hnode. found_render Hnode.
  by rewrite !capability_effective.
Qed.

Lemma capability_flags_resolved_witness :
  let s := sample_state {[ "n1" := Obj 5%positive n1 ]} in
  let props := sample_props s Undefined "n1" in
  exists component out effects,
    NodeComponentWrapper sample_error003 sample_getPositionWithOrigin s props
      = (RenderElement component "n1" out, effects)
    /\ WrapNodeProps.isDraggable out = effective Undefined true
    /\ WrapNodeProps.isSelectable out = effective Undefined true
    /\ WrapNodeProps.isConnectable out = effective Undefined true
    /\ WrapNodeProps.isFocusable out = effective Undefined true.
Proof.
  intros s props.
  exact (capability_flags_resolved sample_error003 sample_getPositionWithOrigin s props
           (Obj 5%positive n1) eq_refl).
Defined.

Lemma resolved_type_cases (node : Node.t) :
  resolved_type node
    = match Node.type node with
      | Val (String a name) => String a name
      | Val EmptyString | Undefined | Null => "default"
      end.
Proof. unfold resolved_type. by destruct (Node.type node) as [| |[]]. Qed.

Lemma read_own {V} (o : object V) (key : string) (v : V) :
  own o !! key = Some v -> read o key = Val v.
Proof. unfold read. by intros ->. Qed.

Lemma read_nothing {V} (o : object V) (key : string) :
  own o !! key = None -> inherited o !! key = None -> read o key = Undefined.
Proof. unfold read. by intros -> ->. Qed.

Lemma read_not_null {V} (o : object V) (key : string) : read o key <> Null.
Proof. unfold read. destruct (own o !! key); [done |]. by destruct (inherited o !! key). Qed.

Lemma errorMessages_error003_mentions (name : string) :
  mentions (errorMessages_error003 name) name.
Proof.
  exists (String.append "Node type " quote),
    (String.append quote " not found. Using fallback type default.").
  reflexivity.
Qed.

(** C3, as the code has it by design.  The resolved type name is
    [node.type] when it is present and not the empty string, else
    ["default"].  For every node the store holds the wrapper renders an
    element.  When the name is an own key of the registry, the render has no
    effect and uses that entry.  When the name is neither an own key nor a
    member the registry object inherits, the render calls the error
    callback, if one is set, exactly once, with code ["003"] and a message
    that contains the name, and calls nothing when none is set; the element
    is rendered with what the registry holds under ["default"] and has type
    ["default"].  (A name that is only an inherited member of the registry
    object is left out.) *)
Theorem unknown_type_reported_once
    (getPositionWithOrigin : OriginArgs.t -> XYPosition)
    (s : State.t) (props : Props.t) (node : obj Node.t) :
  node_selector props s = Val node ->
  let registry := obj_val (Props.nodeTypes props) in
  let name :=
    match Node.type (obj_val node) with
    | Val (String a name) => String a name
    | Val EmptyString | Undefined | Null => "default"
    end in
  exists component out effects,
    NodeComponentWrapper errorMessages_error003 getPositionWithOrigin s props
      = (RenderElement component (Node.id (obj_val node)) out, effects)
    /\ match own registry !! name with
        | Some entry =>
            effects = [] /\ component = Val entry /\ WrapNodeProps.type out = name
        | None =>
            inherited registry !! name = None ->
            effects
              = match Props.onError props with
                | Val onError =>
                    [CallOnError onError "003" (errorMessages_error003 name)]
                | Undefined | Null => []
                end
            /\ mentions (errorMessages_error003 name) name
            /\ component = read registry "default"
            /\ WrapNodeProps.type out = "default"
        end.
Proof.
  intros Hnode registry name. found_render Hnode.
  rewrite resolved_type_cases. fold name. fold registry.
  destruct (own registry !! name) as [entry|] eqn:Hown.
  - rewrite !(read_own registry name entry Hown). cbn.
    rewrite (read_own registry name entry Hown). done.
  - intros Hinherited. rewrite (read_nothing registry name Hown Hinherited). cbn.
    split_and!; [done | apply errorMessages_error003_mentions | | done].
    unfold js_or. by destruct (read registry "default").
Qed.

Lemma unknown_type_reported_once_witness :
  let s := sample_state {[ "n1" := Obj 5%positive n1 ]} in
  let props := sample_props s Undefined "n1" in
  exists component out effects,
    NodeComponentWrapper errorMessages_error003 sample_getPositionWithOrigin s props
      = (RenderElement component "n1" out, effects)
    /\ effects = [CallOnError 31%positive "003" (errorMessages_error003 "custom")]
    /\ mentions (errorMessages_error003 "custom") "custom"
    /\ component = Val 21%positive
    /\ WrapNodeProps.type out = "default".
Proof.
  intros s props.
  destruct (unknown_type_reported_once sample_getPositionWithOrigin s props
              (Obj 5%positive n1) eq_refl)
    as (component & out & effects & Hrender & Hcase).
  exists component, out, effects. split; [exact Hrender |].
  exact (Hcase eq_refl).
Defined.

(** C3, as the claim words it, fails at three inputs; in each the name
    the claim resolves has no entry in the registry (which holds ["default"]
    only), and yet the render calls the error callback zero times.
    A [type] that is present but is the empty string resolves to
    ["default"].  A [type] that names a member the registry object inherits,
    such as ["toString"], is found by [props.nodeTypes[nodeType]].  With an
    unknown type and no error callback set there is nothing to call. *)
Lemma type_name_as_claimed_not_reported :
  let render s nodeId :=
    NodeComponentWrapper errorMessages_error003 sample_getPositionWithOrigin s
      (sample_props s Undefined nodeId) in
  let entry_for type :=
    own (obj_val default_only) !! type_if_present (with_type (plain_node "n3") type) in
  (entry_for (Val "") = None
   /\ reported (render (one_node "n3" (Val "")) "n3").2 = [])
  /\ (entry_for (Val "toString") = None
      /\ reported (render (one_node "n3" (Val "toString")) "n3").2 = [])
  /\ (entry_for (Val "custom") = None
      /\ reported (render (without_onError (one_node "n3" (Val "custom"))) "n3").2 = []).
Proof. vm_compute. repeat split. Qed.

(** C4.  When the store has no record for the id, the render returns
    [null] and has no effect at all: no error report and no store write.
    The render is a total function, so it yields this result and nothing
    else. *)
Theorem missing_node_renders_nothing
    (error003 : string -> string) (getPositionWithOrigin : OriginArgs.t -> XYPosition)
    (s : State.t) (props : Props.t) :
  State.nodeLookup s !! Props.id props = None ->
  NodeComponentWrapper error003 getPositionWithOrigin s props = (RenderNull, [])
  /\ reported (NodeComponentWrapper error003 getPositionWithOrigin s props).2 = []
  /\ store_writes (NodeComponentWrapper error003 getPositionWithOrigin s props).2 = [].
Proof.
  intros Hmissing. unfold NodeComponentWrapper, node_selector, get.
  by rewrite Hmissing.
Qed.

Lemma missing_node_renders_nothing_witness :
  let s := sample_state {[ "n1" := Obj 5%positive n1 ]} in
  NodeComponentWrapper sample_error003 sample_getPositionWithOrigin s
    (sample_props s Undefined "n2") = (RenderNull, []).
Proof.
  intros s.
  exact (proj1 (missing_node_renders_nothing sample_error003 sample_getPositionWithOrigin
                  s (sample_props s Undefined "n2") eq_refl)).
Defined.

(** C6, as the code has it.  For every node the store holds, the wrapper
    renders an element, and the position handed to the visual component is
    the node's absolute position, taken as [(0,0)] when it is missing, and
    clamped into the extent when one is configured: with no extent it is
    passed unchanged (so a missing position gives [(0,0)]), with an extent
    a missing position gives [(0,0)] clamped into it.  A position inside the
    configured extent is passed unchanged. *)
Theorem clamped_position_passed
    (error003 : string -> string) (getPositionWithOrigin : OriginArgs.t -> XYPosition)
    (s : State.t) (props : Props.t) (node : obj Node.t) :
  node_selector props s = Val node ->
  let absolute :=
    match Node.computed (obj_val node) with
    | Val computed =>
        match Computed.positionAbsolute computed with
        | Val position => position
        | Undefined | Null => origin_position
        end
    | Undefined | Null => origin_position
    end in
  exists component out effects,
    NodeComponentWrapper error003 getPositionWithOrigin s props
      = (RenderElement component (Node.id (obj_val node)) out, effects)
    /\ let passed :=
         {| pos_x := WrapNodeProps.xPos out; pos_y := WrapNodeProps.yPos out |} in
       WrapNodeProps.positionAbsolute out = passed
       /\ match Props.nodeExtent props with
          | Val extent =>
              passed
                = {| pos_x := clamp (pos_x absolute) (fst (extent_x (obj_val extent)))
                                (snd (extent_x (obj_val extent)));
                     pos_y := clamp (pos_y absolute) (fst (extent_y (obj_val extent)))
                                (snd (extent_y (obj_val extent))) |}
              /\ (inside absolute (obj_val extent) = true -> passed = absolute)
          | Undefined | Null => passed = absolute
          end.
Proof.
  intros Hnode absolute. found_render Hnode. subst absolute.
  unfold posX, posY, clampedPosition.
  destruct (Props.nodeExtent props) as [| |extent]; cbn;
    destruct (Node.computed (obj_val node)) as [| |computed]; cbn;
    try destruct (Computed.positionAbsolute computed) as [| |[px py]]; cbn;
    repeat split; try reflexivity;
    intros Hinside; apply (clampPosition_inside _ _) in Hinside;
    unfold clampPosition in Hinside; cbn in Hinside; exact Hinside.
Qed.

(** The spec's scenario: extent [{x:[0,100], y:[0,100]}] and absolute
    position [(150,50)] give [(100,50)]. *)
Lemma clamped_position_passed_witness :
  let node := Obj 5%positive (with_geometry (plain_node "n1") (at_position 150 50)
                                Undefined Undefined) in
  let s := sample_state {[ "n1" := node ]} in
  let props := sample_props s (Val (Obj 7%positive extent_0_100)) "n1" in
  exists component out effects,
    NodeComponentWrapper sample_error003 sample_getPositionWithOrigin s props
      = (RenderElement component "n1" out, effects)
    /\ WrapNodeProps.positionAbsolute out
        = {| pos_x := WrapNodeProps.xPos out; pos_y := WrapNodeProps.yPos out |}
    /\ {| pos_x := WrapNodeProps.xPos out; pos_y := WrapNodeProps.yPos out |}
        = {| pos_x := Finite 100; pos_y := Finite 50 |}.
Proof.
  intros node s props.
  destruct (clamped_position_passed sample_error003 sample_getPositionWithOrigin s
              props node eq_refl)
    as (component & out & effects & Hrender & Hprop & Hpassed & _).
  exists component, out, effects.
  split; [exact Hrender |]. split; [exact Hprop | exact Hpassed].
Defined.

(** C6, as the claim words it, fails where the absolute position is
    missing and the configured extent leaves the origin outside: with the
    extent [{x:[10,100], y:[10,100]}] the coordinates passed are
    [(10,10)], not [(0,0)]. *)
Lemma missing_position_not_origin :
  ~ (forall (s : State.t) (props : Props.t) (node : obj Node.t)
       (component : optional Component) (key : string) (out : WrapNodeProps.t)
       (effects : list effect),
       node_selector props s = Val node ->
       chain (Node.computed (obj_val node)) Computed.positionAbsolute = Undefined ->
       NodeComponentWrapper sample_error003 sample_getPositionWithOrigin s props
         = (RenderElement component key out, effects) ->
       WrapNodeProps.xPos out = zero /\ WrapNodeProps.yPos out = zero).
Proof.
  intros Hclaim.
  pose (node := Obj 5%positive (plain_node "n1")).
  pose (s := sample_state {[ "n1" := node ]}).
  pose (props := sample_props s (Val (Obj 7%positive extent_10_100)) "n1").
  destruct (NodeComponentWrapper sample_error003 sample_getPositionWithOrigin s props)
    as [[|component key out] effects] eqn:Hrender;
    [vm_compute in Hrender; discriminate |].
  destruct (Hclaim s props node component key out effects eq_refl eq_refl Hrender)
    as [Hx _].
  vm_compute in Hrender. injection Hrender as _ _ Hout _. subst out.
  vm_compute in Hx. discriminate Hx.
Qed.

Lemma size_of_coalesce (computed : optional Computed.t)
    (field : Computed.t -> optional number) (authored : optional number) :
  nullish_else (nullish (chain computed field) authored) zero
    = size_of (chain computed field) authored.
Proof.
  destruct computed as [| |c]; cbn; try by destruct authored.
  destruct (field c); cbn; by destruct authored.
Qed.

Lemma origin_of_or (own collection : optional (obj NodeOrigin)) :
  js_or own collection = origin_of own collection.
Proof. by destruct own. Qed.

(** C7.  For every node the store holds, the wrapper renders an element,
    and the origin-adjusted position handed to the visual component is
    [getPositionWithOrigin] applied to the clamped position (the [xPos] and
    [yPos] handed to the same component), to the width and the height
    taken, each, as the computed value when available, else the authored
    one, else zero, and to the node's own origin if present, else the
    collection-wide origin. *)
Theorem origin_adjusted_position
    (error003 : string -> string) (getPositionWithOrigin : OriginArgs.t -> XYPosition)
    (s : State.t) (props : Props.t) (node : obj Node.t) :
  node_selector props s = Val node ->
  let computed := Node.computed (obj_val node) in
  exists component out effects,
    NodeComponentWrapper error003 getPositionWithOrigin s props
      = (RenderElement component (Node.id (obj_val node)) out, effects)
    /\ let adjusted :=
         getPositionWithOrigin
           {| OriginArgs.x := WrapNodeProps.xPos out;
              OriginArgs.y := WrapNodeProps.yPos out;
              OriginArgs.width :=
                size_of (chain computed Computed.width) (Node.width (obj_val node));
              OriginArgs.height :=
                size_of (chain computed Computed.height) (Node.height (obj_val node));
              OriginArgs.origin :=
                origin_of (Node.origin (obj_val node)) (Props.nodeOrigin props) |} in
       WrapNodeProps.xPosOrigin out = pos_x adjusted
       /\ WrapNodeProps.yPosOrigin out = pos_y adjusted.
Proof.
  intros Hnode computed. found_render Hnode. subst computed.
  unfold posOrigin, originArgs.
  by rewrite !size_of_coalesce, origin_of_or.
Qed.

Lemma origin_adjusted_position_witness :
  let s := sample_state {[ "n1" := Obj 5%positive n1 ]} in
  let props := sample_props s Undefined "n1" in
  exists component out effects,
    NodeComponentWrapper sample_error003 sample_getPositionWithOrigin s props
      = (RenderElement component "n1" out, effects)
    /\ WrapNodeProps.xPosOrigin out
        = pos_x (sample_getPositionWithOrigin
                   {| OriginArgs.x := WrapNodeProps.xPos out;
                      OriginArgs.y := WrapNodeProps.yPos out;
                      OriginArgs.width := Finite 100;
                      OriginArgs.height := Finite 50;
                      OriginArgs.origin := Undefined |})
    /\ WrapNodeProps.yPosOrigin out
        = pos_y (sample_getPositionWithOrigin
                   {| OriginArgs.x := WrapNodeProps.xPos out;
                      OriginArgs.y := WrapNodeProps.yPos out;
                      OriginArgs.width := Finite 100;
                      OriginArgs.height := Finite 50;
                      OriginArgs.origin := Undefined |}).
Proof.
  intros s props.
  exact (origin_adjusted_position sample_error003 sample_getPositionWithOrigin s
           props (Obj 5%positive n1) eq_refl).
Defined.

Lemma js_and_true (a b : bool) : js_and a b = true <-> a = true /\ b = true.
Proof. destruct a, b; cbn; intuition congruence. Qed.

Lemma js_or_true (a b : bool) : js_or a b = true <-> a = true \/ b = true.
Proof. destruct a, b; cbn; intuition congruence. Qed.

Lemma not_not_to_boolean {A} `{ToBoolean A} (x : A) : not_not x = to_boolean x.
Proof. unfold not_not. by destruct (to_boolean x). Qed.

(** A possibly missing number is truthy exactly when it is present, is
    not NaN and is not zero. *)
Lemma truthy_number (n : optional number) :
  to_boolean n = true
  <-> n = Val NegInfinity \/ n = Val PosInfinity
      \/ exists q, n = Val (Finite q) /\ ~ (q == 0)%Q.
Proof.
  split.
  - destruct n as [| |[| |q|]]; cbn; try discriminate; auto.
    intros Hq. right; right. exists q. split; [reflexivity |].
    intros Hzero. apply Qeq_bool_iff in Hzero. rewrite Hzero in Hq. discriminate.
  - intros [-> | [-> | (q & -> & Hq)]]; cbn; try reflexivity.
    destruct (Qeq_bool q 0) eqn:Hb; [| reflexivity].
    apply Qeq_bool_iff in Hb. contradiction.
Qed.

(** C8.  For every node the store holds, the wrapper renders an element,
    and the [initialized] flag handed to the visual component is true
    exactly when the computed width and the computed height are both
    truthy, or the authored width and the authored height are both truthy.
    A pair of which one member is missing or zero does not count. *)
Theorem initialized_iff_pair_truthy
    (error003 : string -> string) (getPositionWithOrigin : OriginArgs.t -> XYPosition)
    (s : State.t) (props : Props.t) (node : obj Node.t) :
  node_selector props s = Val node ->
  let computed := Node.computed (obj_val node) in
  exists component out effects,
    NodeComponentWrapper error003 getPositionWithOrigin s props
      = (RenderElement component (Node.id (obj_val node)) out, effects)
    /\ (WrapNodeProps.initialized out = true
        <-> (to_boolean (chain computed Computed.width) = true
             /\ to_boolean (chain computed Computed.height) = true)
            \/ (to_boolean (Node.width (obj_val node)) = true
                /\ to_boolean (Node.height (obj_val node)) = true)).
Proof.
  intros Hnode computed. found_render Hnode. subst computed.
  unfold initialized.
  by rewrite js_or_true, !js_and_true, !not_not_to_boolean.
Qed.

Lemma initialized_iff_pair_truthy_witness :
  let s := sample_state {[ "n1" := Obj 5%positive n1 ]} in
  let props := sample_props s Undefined "n1" in
  exists component out effects,
    NodeComponentWrapper sample_error003 sample_getPositionWithOrigin s props
      = (RenderElement component "n1" out, effects)
    /\ WrapNodeProps.initialized out = true.
Proof.
  intros s props.
  destruct (initialized_iff_pair_truthy sample_error003 sample_getPositionWithOrigin s
              props (Obj 5%positive n1) eq_refl)
    as (component & out & effects & Hrender & Hiff).
  exists component, out, effects. split; [exact Hrender |].
  apply Hiff. right. split; reflexivity.
Defined.

(** A node with an authored width and a zero height, and a computed width
    only, is not initialized. *)
Example half_pairs_not_initialized :
  initialized
    (with_geometry (plain_node "n1")
       (Val {| Computed.width := Val (Finite 100);
               Computed.height := Undefined;
               Computed.positionAbsolute := Undefined |})
       (Val (Finite 100)) (Val (Finite 0))) = false.
Proof. reflexivity. Qed.

(** ** The [Map] of staged updates *)

Section JSMapFacts.
Context {K V : Type} `{EqDecision K}.
Implicit Types (m : list (K * V)) (k : K) (v : V).

Lemma Map_get_set m k v k' :
  Map_get (Map_set m k v) k' = if decide (k' = k) then Some v else Map_get m k'.
Proof.
  induction m as [|[k0 v0] m IH]; cbn.
  - by destruct (decide (k' = k)).
  - destruct (decide (k = k0)) as [->|Hne]; cbn.
    + by destruct (decide (k' = k0)).
    + rewrite IH. destruct (decide (k' = k0)) as [->|]; [| done].
      by rewrite decide_False.
Qed.

Lemma Map_keys_set m k v k' :
  k' ∈ Map_keys (Map_set m k v) <-> k' = k \/ k' ∈ Map_keys m.
Proof.
  unfold Map_keys. induction m as [|[k0 v0] m IH]; cbn.
  - rewrite list_elem_of_singleton, elem_of_nil. tauto.
  - destruct (decide (k = k0)) as [->|Hne]; cbn.
    + rewrite !elem_of_cons. tauto.
    + rewrite !elem_of_cons, IH. tauto.
Qed.

Lemma Map_set_NoDup m k v : NoDup (Map_keys m) -> NoDup (Map_keys (Map_set m k v)).
Proof.
  unfold Map_keys. induction m as [|[k0 v0] m IH]; cbn; intros Hm.
  - apply NoDup_singleton.
  - apply NoDup_cons in Hm as [Hk0 Hm].
    destruct (decide (k = k0)) as [->|Hne]; cbn.
    + by apply NoDup_cons.
    + apply NoDup_cons. split; [| by apply IH].
      intros Hin. apply (Map_keys_set m k v k0) in Hin as [->|Hin]; done.
Qed.

Lemma Map_get_Some_elem m k v : Map_get m k = Some v -> (k, v) ∈ m.
Proof.
  induction m as [|[k0 v0] m IH]; cbn; [done |].
  destruct (decide (k = k0)) as [->|Hne].
  - intros [= ->]. apply list_elem_of_here.
  - intros Hget. apply list_elem_of_further. by apply IH.
Qed.

Lemma Map_get_of_elem m k v : NoDup (Map_keys m) -> (k, v) ∈ m -> Map_get m k = Some v.
Proof.
  unfold Map_keys. induction m as [|[k0 v0] m IH]; cbn; intros Hm Hin.
  - by apply elem_of_nil in Hin.
  - apply NoDup_cons in Hm as [Hk0 Hm].
    apply elem_of_cons in Hin as [[= -> ->]|Hin].
    + by rewrite decide_True.
    + destruct (decide (k = k0)) as [->|Hne]; [| by apply IH].
      exfalso. apply Hk0. apply list_elem_of_fmap. by exists (k0, v).
Qed.

Lemma Map_keys_get m k : k ∈ Map_keys m <-> is_Some (Map_get m k).
Proof.
  unfold Map_keys. induction m as [|[k0 v0] m IH]; cbn.
  - split; [by intros ?%elem_of_nil | by intros [? ?]].
  - rewrite elem_of_cons, IH.
    destruct (decide (k = k0)) as [->|Hne]; [by split; eauto |].
    tauto.
Qed.

End JSMapFacts.

Lemma staged_fold_NoDup (entries : list ResizeObserverEntry)
    (updates : list (optional string * Update.t)) :
  NoDup (Map_keys updates) -> NoDup (Map_keys (foldl stage updates entries)).
Proof.
  revert updates. induction entries as [|entry entries IH]; cbn; intros updates Hm.
  - done.
  - apply IH. by apply Map_set_NoDup.
Qed.

Lemma staged_fold_get (entries : list ResizeObserverEntry)
    (updates : list (optional string * Update.t)) (id : optional string) :
  Map_get (foldl stage updates entries) id
    = match last_entry_for id entries with
      | Some entry => Some (staged entry)
      | None => Map_get updates id
      end.
Proof.
  unfold last_entry_for.
  revert updates. induction entries as [|entry entries IH]; intros updates.
  - done.
  - change (foldl stage updates (entry :: entries))
      with (foldl stage (stage updates entry) entries).
    rewrite IH, filter_cons. unfold stage at 1. rewrite Map_get_set.
    destruct (decide (getAttribute (target entry) "data-id" = id)) as [Hid|Hid].
    + rewrite last_cons.
      destruct (last (filter _ entries)); [done |].
      by rewrite decide_True.
    + destruct (last (filter _ entries)); [done |].
      by rewrite decide_False.
Qed.

Lemma last_entry_for_id (id : optional string) (entries : list ResizeObserverEntry)
    (entry : ResizeObserverEntry) :
  last_entry_for id entries = Some entry ->
  entry ∈ entries /\ getAttribute (target entry) "data-id" = id.
Proof.
  unfold last_entry_for. intros Hlast%last_Some_elem_of.
  by apply list_elem_of_filter in Hlast as [? ?].
Qed.

Lemma staged_updates_spec (entries : list ResizeObserverEntry) :
  NoDup (Map_keys (staged_updates entries))
  /\ forall id, Map_get (staged_updates entries) id = staged <$> last_entry_for id entries.
Proof.
  split.
  - apply staged_fold_NoDup. apply NoDup_nil_2.
  - intros id. unfold staged_updates. rewrite staged_fold_get.
    by destruct (last_entry_for id entries).
Qed.

(** C5.  Whatever the batch, the callback calls [updateNodeDimensions]
    exactly once, with one map.  The map has one entry per id read from the
    [data-id] attribute of the elements of the batch; the entry of an id
    is the record [{id, nodeElement, forceUpdate: true}] staged for the last
    entry of the batch that carries this id. *)
Theorem batch_flushed_in_one_call (updateNodeDimensions : fn_ref)
    (entries : list ResizeObserverEntry) :
  exists updates : list (optional string * Update.t),
    observer_callback updateNodeDimensions entries
      = [CallUpdateNodeDimensions updateNodeDimensions updates]
    /\ NoDup (Map_keys updates)
    /\ (forall id, Map_get updates id = staged <$> last_entry_for id entries)
    /\ (forall id update, (id, update) ∈ updates ->
          exists entry, last_entry_for id entries = Some entry
            /\ update = {| Update.id := id;
                           Update.nodeElement := target entry;
                           Update.forceUpdate := true |}).
Proof.
  exists (staged_updates entries).
  destruct (staged_updates_spec entries) as [Hnodup Hget].
  repeat split; [done | done |].
  intros id update Hin. apply (Map_get_of_elem _ _ _ Hnodup) in Hin.
  rewrite Hget in Hin.
  destruct (last_entry_for id entries) as [entry|] eqn:Hlast; [| done].
  injection Hin as <-. exists entry. split; [done |].
  apply last_entry_for_id in Hlast as [_ Hid].
  unfold staged. by rewrite Hid.
Qed.

Lemma batch_flushed_in_one_call_witness :
  exists updates : list (optional string * Update.t),
    observer_callback 30%positive sample_batch
      = [CallUpdateNodeDimensions 30%positive updates]
    /\ NoDup (Map_keys updates)
    /\ (forall id, Map_get updates id = staged <$> last_entry_for id sample_batch)
    /\ (forall id update, (id, update) ∈ updates ->
          exists entry, last_entry_for id sample_batch = Some entry
            /\ update = {| Update.id := id;
                           Update.nodeElement := target entry;
                           Update.forceUpdate := true |}).
Proof. exact (batch_flushed_in_one_call 30%positive sample_batch). Defined.

(** On the sample batch: two entries, the id [a] first, then [null] with
    the last element that has no id. *)
Example sample_batch_staged :
  staged_updates sample_batch
    = [ (Val "a", {| Update.id := Val "a";
                     Update.nodeElement := element 1 (Some "a");
                     Update.forceUpdate := true |});
        (Null, {| Update.id := Null;
                  Update.nodeElement := element 3 None;
                  Update.forceUpdate := true |}) ].
Proof. reflexivity. Qed.

(** C10.  An element without the [data-id] attribute is staged all the
    same: [getAttribute] returns [null], and the map handed to the store in
    the one call has an entry under the key [null], holding the last such
    element of the batch.  The keys of the map are distinct, so all the
    entries without the attribute share that one entry; nothing is skipped
    and no error is reported. *)
Theorem entry_without_id_staged_under_null (updateNodeDimensions : fn_ref)
    (entries : list ResizeObserverEntry) (entry : ResizeObserverEntry) :
  entry ∈ entries ->
  getAttribute (target entry) "data-id" = Null ->
  exists (updates : list (optional string * Update.t)) (last_one : ResizeObserverEntry),
    observer_callback updateNodeDimensions entries
      = [CallUpdateNodeDimensions updateNodeDimensions updates]
    /\ last_entry_for Null entries = Some last_one
    /\ Map_get updates Null
       = Some {| Update.id := Null;
                 Update.nodeElement := target last_one;
                 Update.forceUpdate := true |}
    /\ Null ∈ Map_keys updates
    /\ NoDup (Map_keys updates)
    /\ reported (observer_callback updateNodeDimensions entries) = [].
Proof.
  intros Hin Hnull.
  destruct (staged_updates_spec entries) as [Hnodup Hget].
  destruct (last_entry_for Null entries) as [last_one|] eqn:Hlast.
  - exists (staged_updates entries), last_one.
    pose proof (last_entry_for_id _ _ _ Hlast) as [_ Hid].
    assert (Hentry : Map_get (staged_updates entries) Null
              = Some {| Update.id := Null; Update.nodeElement := target last_one;
                        Update.forceUpdate := true |}).
    { rewrite Hget, Hlast. cbn. unfold staged. by rewrite Hid. }
    repeat split; try done.
    apply Map_keys_get. rewrite Hentry. by eexists.
  - exfalso. unfold last_entry_for in Hlast. apply last_None in Hlast.
    assert (Hmem : entry ∈ filter
              (fun e => getAttribute (target e) "data-id" = Null) entries).
    { by apply list_elem_of_filter. }
    rewrite Hlast in Hmem. by apply elem_of_nil in Hmem.
Qed.

Lemma entry_without_id_staged_under_null_witness :
  let batch := sample_batch in
  exists updates last_one,
    observer_callback 30%positive batch = [CallUpdateNodeDimensions 30%positive updates]
    /\ last_entry_for Null batch = Some last_one
    /\ Map_get updates Null
       = Some {| Update.id := Null;
                 Update.nodeElement := target last_one;
                 Update.forceUpdate := true |}
    /\ Null ∈ Map_keys updates
    /\ NoDup (Map_keys updates)
    /\ reported (observer_callback 30%positive batch) = [].
Proof.
  intros batch.
  apply (entry_without_id_staged_under_null 30%positive batch
           {| target := element 2 None |}).
  - apply list_elem_of_further, list_elem_of_here.
  - reflexivity.
Defined.

(** ** The life of the coordinator *)

Lemma children_given (props : NodeRendererProps.t) (slice : Slice.t)
    (resizeObserver : optional positive) (nodeIds : list string) :
  Forall (fun p => Props.resizeObserver p = resizeObserver)
    (child_props props slice resizeObserver <$> nodeIds).
Proof. apply Forall_fmap, Forall_true. done. Qed.

Lemma first_render (rt : Runtime) (s : State.t) (nodeIds : list string)
    (props : NodeRendererProps.t) :
  NodeRenderer rt initial_hooks s nodeIds props
    = if ResizeObserver_defined rt then
        (hooks_with (fresh_ref rt) (State.updateNodeDimensions s),
         child_props props (selector s) (Val (fresh_ref rt)) <$> nodeIds,
         [NewResizeObserver (fresh_ref rt)])
      else
        (hooks_without, child_props props (selector s) Null <$> nodeIds, []).
Proof.
  unfold NodeRenderer, useMemo_resizeObserver. cbn.
  by destruct (ResizeObserver_defined rt).
Qed.

Lemma run_with_observer (o : positive) (f : fn_ref) (events : list event) :
  exists renders trace,
    run (hooks_with o f) events = (hooks_with o f, renders, trace)
    /\ all_children_given (Val o) renders
    /\ constructed trace = [] /\ disconnected trace = [] /\ reported trace = [].
Proof.
  induction events as [|e events (renders & trace & Hrun & Hchildren & Hc & Hd & Hr)].
  - exists [], []. repeat split. apply Forall_nil_2.
  - destruct e as [rt s nodeIds props|entries]; cbn; rewrite Hrun.
    + exists ((child_props props (selector s) (Val o) <$> nodeIds) :: renders), trace.
      repeat split; try done.
      apply Forall_cons. split; [apply children_given | done].
    + exists renders, (observer_callback f entries ++ trace).
      repeat split; done.
Qed.

Lemma run_without_observer (events : list event) :
  exists renders,
    run hooks_without events = (hooks_without, renders, [])
    /\ all_children_given Null renders.
Proof.
  induction events as [|e events (renders & Hrun & Hchildren)].
  - exists []. split; [done | apply Forall_nil_2].
  - destruct e as [rt s nodeIds props|entries]; cbn; rewrite Hrun.
    + exists ((child_props props (selector s) Null <$> nodeIds) :: renders).
      split; [done |].
      apply Forall_cons. split; [apply children_given | done].
    + exists renders. done.
Qed.

(** Outside [StrictMode], over a whole life of the coordinator (the mount,
    any renders and measurements after it, the unmount): when [ResizeObserver] is defined
    at the first render, exactly one observer is constructed, every wrapper
    of every render is handed that one observer, and it is disconnected
    exactly once, as the last effect, whether or not a measurement came;
    when [ResizeObserver] is undefined at the first render, no observer is
    constructed, every wrapper is handed [null], and the coordinator has
    no effect at all: nothing to disconnect and no error reported. *)
Theorem one_observer_per_lifetime (rt : Runtime) (s : State.t)
    (nodeIds : list string) (props : NodeRendererProps.t) (events : list event) :
  let renders := (lifetime rt s nodeIds props events).1 in
  let trace := (lifetime rt s nodeIds props events).2 in
  length (constructed trace) <= 1
  /\ reported trace = []
  /\ if ResizeObserver_defined rt then
       constructed trace = [fresh_ref rt]
       /\ disconnected trace = [fresh_ref rt]
       /\ last trace = Some (Disconnect (fresh_ref rt))
       /\ all_children_given (Val (fresh_ref rt)) renders
     else
       trace = [] /\ all_children_given Null renders.
Proof.
  unfold lifetime. cbn [run step]. rewrite first_render.
  destruct (ResizeObserver_defined rt).
  - destruct (run_with_observer (fresh_ref rt) (State.updateNodeDimensions s) events)
      as (renders & trace & -> & Hchildren & Hc & Hd & Hr).
    cbn. unfold constructed, disconnected, reported in *.
    rewrite !omap_app, Hc, Hd, Hr. cbn.
    repeat split; try done.
    + by rewrite app_comm_cons, last_snoc.
    + apply Forall_cons. split; [apply children_given | done].
  - destruct (run_without_observer events) as (renders & -> & Hchildren).
    cbn. repeat split; try done; [lia |].
    apply Forall_cons. split; [apply children_given | done].
Qed.

Lemma one_observer_per_lifetime_witness :
  let rt := {| ResizeObserver_defined := true; fresh_ref := 9%positive |} in
  let trace :=
    (lifetime rt two_nodes ["n1"; "n2"] (sample_renderer_props Undefined) []).2 in
  constructed trace = [9%positive] /\ disconnected trace = [9%positive].
Proof.
  intros rt trace.
  destruct (one_observer_per_lifetime rt two_nodes ["n1"; "n2"]
              (sample_renderer_props Undefined) []) as (_ & _ & Hc & Hd & _).
  split; [exact Hc | exact Hd].
Defined.

(** A life with a measurement and a later render in a runtime that has
    lost [ResizeObserver]: still one observer, handed to both renders. *)
Example lifetime_trace :
  (lifetime {| ResizeObserver_defined := true; fresh_ref := 9%positive |}
     two_nodes ["n1"] (sample_renderer_props Undefined)
     [ Measure [];
       Render {| ResizeObserver_defined := false; fresh_ref := 10%positive |}
         two_nodes ["n2"] (sample_renderer_props Undefined) ]).2
  = [ NewResizeObserver 9; CallUpdateNodeDimensions 30%positive []; Disconnect 9 ].
Proof. reflexivity. Qed.

(** C9, under [StrictMode].  When the coordinator is mounted under
    [StrictMode] in a runtime that has [ResizeObserver], the factory of
    [useMemo] runs in both calls of the mount: two observers are
    constructed in one life.  The first is dropped with the hooks of the
    first call and is never disconnected; the second is the one handed to
    every wrapper, and it is disconnected twice, once by the cleanup React
    runs right after the mount and once at the unmount. *)
Theorem strict_mode_constructs_two_observers (rt : Runtime) (s : State.t)
    (nodeIds : list string) (props : NodeRendererProps.t) (events : list event) :
  ResizeObserver_defined rt = true ->
  let renders := (strict_lifetime rt s nodeIds props events).1 in
  let trace := (strict_lifetime rt s nodeIds props events).2 in
  constructed trace = [fresh_ref rt; Pos.succ (fresh_ref rt)]
  /\ disconnected trace = [Pos.succ (fresh_ref rt); Pos.succ (fresh_ref rt)]
  /\ (fresh_ref rt ∉ disconnected trace)
  /\ all_children_given (Val (Pos.succ (fresh_ref rt))) renders.
Proof.
  intros Hdefined. unfold strict_lifetime. rewrite !first_render.
  cbn [ResizeObserver_defined next_runtime fresh_ref]. rewrite Hdefined.
  destruct (run_with_observer (Pos.succ (fresh_ref rt)) (State.updateNodeDimensions s)
              events) as (renders & trace & -> & Hchildren & Hc & Hd & Hr).
  cbn. unfold constructed, disconnected in *.
  rewrite !omap_app, Hc, Hd. cbn.
  split_and!; try done.
  - rewrite !elem_of_cons, elem_of_nil. intros [H|[H|[]]]; lia.
  - apply Forall_cons. split; [apply children_given | done].
Qed.

Lemma strict_mode_constructs_two_observers_witness :
  let rt := {| ResizeObserver_defined := true; fresh_ref := 9%positive |} in
  let trace :=
    (strict_lifetime rt two_nodes ["n1"; "n2"] (sample_renderer_props Undefined) []).2 in
  constructed trace = [9%positive; 10%positive]
  /\ disconnected trace = [10%positive; 10%positive].
Proof.
  intros rt trace.
  destruct (strict_mode_constructs_two_observers rt two_nodes ["n1"; "n2"]
              (sample_renderer_props Undefined) [] eq_refl) as (Hc & Hd & _).
  split; [exact Hc | exact Hd].
Defined.

(** The effects of the shortest life under [StrictMode]. *)
Example strict_lifetime_trace :
  (strict_lifetime {| ResizeObserver_defined := true; fresh_ref := 9%positive |}
     two_nodes ["n1"] (sample_renderer_props Undefined) []).2
  = [ NewResizeObserver 9; NewResizeObserver 10; Disconnect 10; Disconnect 10 ].
Proof. reflexivity. Qed.

(** ** When components render again *)

Lemma bool_object_is_refl (b : bool) : object_is b b = true.
Proof. by destruct b. Qed.

Lemma string_object_is_refl (x : string) : object_is x x = true.
Proof. apply String.eqb_refl. Qed.

Lemma positive_object_is_refl (p : positive) : object_is p p = true.
Proof. apply Pos.eqb_refl. Qed.

Lemma obj_object_is_refl {A} (o : obj A) : object_is o o = true.
Proof. apply Pos.eqb_refl. Qed.

Lemma optional_object_is_refl {A} `{ObjectIs A} (x : optional A) :
  (forall a : A, object_is a a = true) -> object_is x x = true.
Proof. intros Hrefl. destruct x; cbn; auto. Qed.

Create HintDb object_is.

#[local] Hint Resolve bool_object_is_refl string_object_is_refl
  positive_object_is_refl obj_object_is_refl : object_is.
#[local] Hint Extern 2 (object_is _ _ = true) =>
  apply optional_object_is_refl; intros : object_is.

Lemma shallow_refl (slice : Slice.t) : shallow slice slice = true.
Proof. unfold shallow. repeat (apply andb_true_intro; split); auto with object_is. Qed.

Lemma NodeRendererProps_equal_refl (props : NodeRendererProps.t) :
  NodeRendererProps_equal props props = true.
Proof.
  unfold NodeRendererProps_equal.
  repeat (apply andb_true_intro; split); auto with object_is.
Qed.

(** What [memo] compares for a wrapper is what the coordinator passes
    down: the id is the same from one render to the next. *)
Lemma child_props_equal (props props' : NodeRendererProps.t) (slice slice' : Slice.t)
    (resizeObserver resizeObserver' : optional positive) (nodeId : string) :
  Props_equal (child_props props slice resizeObserver nodeId)
              (child_props props' slice' resizeObserver' nodeId)
    = passed_down_equal props props' slice slice' resizeObserver resizeObserver'.
Proof.
  unfold Props_equal, passed_down_equal. cbn [child_props Props.id Props.nodeExtent
    Props.nodeTypes Props.nodeOrigin Props.onNodeClick Props.onNodeMouseEnter
    Props.onNodeMouseMove Props.onNodeMouseLeave Props.onNodeContextMenu
    Props.onNodeDoubleClick Props.noDragClassName Props.noPanClassName Props.rfId
    Props.disableKeyboardA11y Props.resizeObserver Props.nodesDraggable
    Props.nodesConnectable Props.nodesFocusable Props.elementsSelectable Props.onError].
  by rewrite string_object_is_refl.
Qed.

Lemma passed_down_equal_refl (props : NodeRendererProps.t) (slice : Slice.t)
    (resizeObserver : optional positive) :
  passed_down_equal props props slice slice resizeObserver resizeObserver = true.
Proof.
  unfold passed_down_equal.
  repeat (apply andb_true_intro; split); auto with object_is.
Qed.

(** C1.  A mounted wrapper renders again exactly when the node object its
    selector returns is another one, or the coordinator rendered and one of
    the inputs it passes down (its props but [onlyRenderVisibleElements],
    the flags and the error callback of its slice, the observer) changed.
    When the store replaces the record of another node and the membership
    of the id list stays the same, the coordinator does not render again,
    and neither does the wrapper of this node, even if the coordinator
    rendered for a reason of its own. *)
Theorem renders_again_only_for_own_changes
    (visibleNodeIds : bool -> State.t -> list string)
    (props props' : NodeRendererProps.t) (s s' : State.t)
    (resizeObserver resizeObserver' : optional positive)
    (nodeId other : string) (replacement : obj Node.t) (parent_rendered : bool) :
  let child := child_props props (selector s) resizeObserver nodeId in
  let child' := child_props props' (selector s') resizeObserver' nodeId in
  let only := NodeRendererProps.onlyRenderVisibleElements props in
  let mutated := replace_node s other replacement in
  (NodeComponentWrapper_rerenders parent_rendered child child' s s' = true
   <-> object_is (get (State.nodeLookup s) nodeId) (get (State.nodeLookup s') nodeId) = false
       \/ (parent_rendered = true
           /\ passed_down_equal props props' (selector s) (selector s')
                resizeObserver resizeObserver' = false))
  /\ (other <> nodeId ->
      list_to_set (useVisibleNodesIds visibleNodeIds only s)
        =@{gset string} list_to_set (useVisibleNodesIds visibleNodeIds only mutated) ->
      NodeRenderer_rerenders visibleNodeIds props props s mutated = false
      /\ NodeComponentWrapper_rerenders parent_rendered child
           (child_props props (selector mutated) resizeObserver nodeId) s mutated = false).
Proof.
  intros child child' only mutated. split.
  - unfold NodeComponentWrapper_rerenders, useStore_rerenders, node_selector.
    subst child child'. rewrite child_props_equal.
    cbn [child_props Props.id].
    rewrite orb_true_iff, andb_true_iff, !negb_true_iff. tauto.
  - intros Hother Hids. split.
    + unfold NodeRenderer_rerenders, useStore_rerenders, useVisibleNodesIds_rerenders.
      fold only. rewrite NodeRendererProps_equal_refl.
      change (selector mutated) with (selector s). rewrite shallow_refl.
      by rewrite bool_decide_true.
    + unfold NodeComponentWrapper_rerenders, useStore_rerenders, node_selector.
      change (selector mutated) with (selector s). subst child.
      rewrite child_props_equal, passed_down_equal_refl.
      rewrite andb_false_r. cbn.
      unfold get. rewrite lookup_insert_ne by done.
      apply negb_false_iff. auto with object_is.
Qed.

Lemma renders_again_only_for_own_changes_witness :
  let props := sample_renderer_props Undefined in
  let mutated := replace_node two_nodes "n2" n2_moved in
  NodeRenderer_rerenders sample_visibleNodeIds props props two_nodes mutated = false
  /\ NodeComponentWrapper_rerenders true
       (child_props props (selector two_nodes) Null "n1")
       (child_props props (selector mutated) Null "n1") two_nodes mutated = false.
Proof.
  intros props mutated.
  apply (proj2 (renders_again_only_for_own_changes sample_visibleNodeIds props props
                  two_nodes two_nodes Null Null "n1" "n2" n2_moved true)).
  - discriminate.
  - vm_compute. reflexivity.
Defined.

(** The wrapper of the node whose record was replaced does render again. *)
Example replaced_node_renders_again :
  let props := sample_renderer_props Undefined in
  let mutated := replace_node two_nodes "n2" n2_moved in
  NodeComponentWrapper_rerenders false
    (child_props props (selector two_nodes) Null "n2")
    (child_props props (selector mutated) Null "n2") two_nodes mutated = true.
Proof. reflexivity. Qed.

(** * Further properties of the renderer *)

(** ** What one render of a wrapper can do *)

(** X5.  Whatever the store and the props, a render of the wrapper has at
    most one effect; it never writes to the store and never constructs or
    disconnects an observer; an error it reports has the code ["003"]. *)
Theorem wrapper_effects_bounded
    (error003 : string -> string) (getPositionWithOrigin : OriginArgs.t -> XYPosition)
    (s : State.t) (props : Props.t) :
  let effects := (NodeComponentWrapper error003 getPositionWithOrigin s props).2 in
  length effects <= 1
  /\ store_writes effects = []
  /\ constructed effects = []
  /\ disconnected effects = []
  /\ Forall (fun report => report.1.2 = "003") (reported effects).
Proof.
  unfold NodeComponentWrapper.
  destruct (node_selector props s) as [| |node]; cbn;
    [repeat split; (lia || apply Forall_nil_2).. |].
  destruct (negb _); [destruct (Props.onError props) |]; cbn;
    repeat split; try lia; try apply Forall_nil_2.
  apply Forall_singleton. reflexivity.
Qed.

(** X6.  For every node the store holds, the [type] handed to the visual
    component names what the element is rendered with: the component is
    what reading the registry object at that type gives.  The type is the
    resolved type of the node when reading the registry at it finds
    something, and ["default"] otherwise; the component is missing exactly
    when the registry object has neither. *)
Theorem type_prop_names_component
    (error003 : string -> string) (getPositionWithOrigin : OriginArgs.t -> XYPosition)
    (s : State.t) (props : Props.t) (node : obj Node.t) :
  node_selector props s = Val node ->
  let registry := obj_val (Props.nodeTypes props) in
  let name := resolved_type (obj_val node) in
  exists component out effects,
    NodeComponentWrapper error003 getPositionWithOrigin s props
      = (RenderElement component (Node.id (obj_val node)) out, effects)
    /\ component = read registry (WrapNodeProps.type out)
    /\ WrapNodeProps.type out
        = match read registry name with
          | Val _ => name
          | Undefined | Null => "default"
          end
    /\ (component = Undefined
        <-> read registry name = Undefined /\ read registry "default" = Undefined).
Proof.
  intros Hnode registry name. found_render Hnode. fold registry. fold name.
  destruct (read registry name) as [| |entry] eqn:Hread; cbn.
  - unfold js_or. destruct (read registry "default") eqn:Hdefault; cbn;
      split_and!; try done; intuition congruence.
  - by destruct (read_not_null registry name).
  - rewrite Hread. cbn. split_and!; try done. intuition congruence.
Qed.

Lemma type_prop_names_component_witness :
  let s := one_node "n3" (Val "constructor") in
  let props := sample_props s Undefined "n3" in
  exists component out effects,
    NodeComponentWrapper sample_error003 sample_getPositionWithOrigin s props
      = (RenderElement component "n3" out, effects)
    /\ component = read (obj_val default_only) (WrapNodeProps.type out)
    /\ WrapNodeProps.type out = "constructor".
Proof.
  intros s props.
  destruct (type_prop_names_component sample_error003 sample_getPositionWithOrigin s
              props (Obj 6%positive (with_type (plain_node "n3") (Val "constructor")))
              eq_refl)
    as (component & out & effects & Hrender & Hcomponent & Htype & _).
  exists component, out, effects.
  split_and!; [exact Hrender | exact Hcomponent | exact Htype].
Defined.

(** X10.  For every node the store holds, the optional fields of the node
    reach the visual component with their defaults: an authored width or
    height is handed over as it is when it is a number and as [undefined]
    when it is [undefined] or [null]; a missing source or target side
    becomes bottom or top; the z-index is the one the layout annotated, else
    zero, and the node is a parent only when the layout says so; the node
    is selected only when its [selected] field is true. *)
Theorem missing_fields_defaulted
    (error003 : string -> string) (getPositionWithOrigin : OriginArgs.t -> XYPosition)
    (s : State.t) (props : Props.t) (node : obj Node.t) :
  node_selector props s = Val node ->
  let n := obj_val node in
  exists component out effects,
    NodeComponentWrapper error003 getPositionWithOrigin s props
      = (RenderElement component (Node.id n) out, effects)
    /\ WrapNodeProps.width out
        = match Node.width n with Val w => Val w | Undefined | Null => Undefined end
    /\ WrapNodeProps.height out
        = match Node.height n with Val h => Val h | Undefined | Null => Undefined end
    /\ WrapNodeProps.sourcePosition out
        = match Node.sourcePosition n with Val side => side | Undefined | Null => Bottom end
    /\ WrapNodeProps.targetPosition out
        = match Node.targetPosition n with Val side => side | Undefined | Null => Top end
    /\ WrapNodeProps.zIndex out
        = match Node.internals n with
          | Val annotated =>
              match Internals.z annotated with Val z => z | Undefined | Null => zero end
          | Undefined | Null => zero
          end
    /\ WrapNodeProps.isParent out
        = match Node.internals n with
          | Val annotated =>
              match Internals.isParent annotated with
              | Val parent => parent
              | Undefined | Null => false
              end
          | Undefined | Null => false
          end
    /\ WrapNodeProps.selected out
        = match Node.selected n with Val selected => selected | Undefined | Null => false end.
Proof.
  intros Hnode n. found_render Hnode. subst n.
  split_and!.
  - by destruct (Node.width (obj_val node)).
  - by destruct (Node.height (obj_val node)).
  - by destruct (Node.sourcePosition (obj_val node)).
  - by destruct (Node.targetPosition (obj_val node)).
  - destruct (Node.internals (obj_val node)) as [| |i]; cbn;
      [done | done | by destruct (Internals.z i)].
  - destruct (Node.internals (obj_val node)) as [| |i]; cbn;
      [done | done | by destruct (Internals.isParent i) as [| |[]]].
  - by destruct (Node.selected (obj_val node)) as [| |[]].
Qed.

Lemma missing_fields_defaulted_witness :
  let node := Obj 5%positive (with_geometry (plain_node "n1") Undefined Null (Val (Finite 50))) in
  let s := sample_state {[ "n1" := node ]} in
  let props := sample_props s Undefined "n1" in
  exists component out effects,
    NodeComponentWrapper sample_error003 sample_getPositionWithOrigin s props
      = (RenderElement component "n1" out, effects)
    /\ WrapNodeProps.width out = Undefined
    /\ WrapNodeProps.height out = Val (Finite 50)
    /\ WrapNodeProps.sourcePosition out = Bottom
    /\ WrapNodeProps.targetPosition out = Top
    /\ WrapNodeProps.zIndex out = zero
    /\ WrapNodeProps.isParent out = false
    /\ WrapNodeProps.selected out = false.
Proof.
  intros node s props.
  exact (missing_fields_defaulted sample_error003 sample_getPositionWithOrigin s props
           node eq_refl).
Defined.

(** ** One render of the coordinator *)

(** What a render of the coordinator returns, whatever the hook state. *)
Lemma NodeRenderer_shape (rt : Runtime) (h : Hooks.t) (s : State.t)
    (nodeIds : list string) (props : NodeRendererProps.t) :
  exists (resizeObserver : optional positive) (h' : Hooks.t) (effects : list effect),
    NodeRenderer rt h s nodeIds props
      = (h', child_props props (selector s) resizeObserver <$> nodeIds, effects)
    /\ Hooks.memo h' = Some resizeObserver
    /\ reported effects = [] /\ store_writes effects = []
    /\ (forall cached, Hooks.memo h = Some cached ->
          resizeObserver = cached /\ h' = h /\ effects = []).
Proof.
  unfold NodeRenderer, useMemo_resizeObserver.
  destruct (Hooks.memo h) as [cached|] eqn:Hmemo.
  - exists cached, h, []. split_and!; try done. by intros ? [= <-].
  - destruct (ResizeObserver_defined rt); cbn.
    + eexists (Val (fresh_ref rt)), _, _. split_and!; try done.
    + eexists Null, _, _. split_and!; try done.
Qed.

(** X9.  Only the first render of a mounted coordinator can have an
    effect: after any render, whatever the runtime, the store and the props
    of a later render, that render leaves the hook state as it is, has no
    effect, and hands every child the observer cached by the first. *)
Theorem later_render_has_no_effect (rt rt' : Runtime) (h : Hooks.t)
    (s s' : State.t) (nodeIds nodeIds' : list string)
    (props props' : NodeRendererProps.t) :
  let h1 := (NodeRenderer rt h s nodeIds props).1.1 in
  exists resizeObserver,
    Hooks.memo h1 = Some resizeObserver
    /\ NodeRenderer rt' h1 s' nodeIds' props'
       = (h1, child_props props' (selector s') resizeObserver <$> nodeIds', []).
Proof.
  intros h1.
  destruct (NodeRenderer_shape rt h s nodeIds props)
    as (resizeObserver & h' & effects & Hfirst & Hmemo & _).
  subst h1. rewrite Hfirst. cbn.
  exists resizeObserver. split; [done |].
  destruct (NodeRenderer_shape rt' h' s' nodeIds' props')
    as (r2 & h2 & effects2 & Hsecond & _ & _ & _ & Hcached).
  destruct (Hcached resizeObserver Hmemo) as (-> & -> & ->). exact Hsecond.
Qed.

(** ** One pass over the tree *)

Lemma render_pass_shape
    (error003 : string -> string) (getPositionWithOrigin : OriginArgs.t -> XYPosition)
    (rt : Runtime) (h : Hooks.t) (s : State.t)
    (nodeIds : list string) (props : NodeRendererProps.t) :
  exists (resizeObserver : optional positive) (h' : Hooks.t) (effects : list effect),
    let render nodeId :=
      NodeComponentWrapper error003 getPositionWithOrigin s
        (child_props props (selector s) resizeObserver nodeId) in
    render_pass error003 getPositionWithOrigin rt h s nodeIds props
      = (h', (fun nodeId => (render nodeId).1) <$> nodeIds, effects)
    /\ Hooks.memo h' = Some resizeObserver
    /\ reported effects = [] /\ store_writes effects = [].
Proof.
  destruct (NodeRenderer_shape rt h s nodeIds props)
    as (resizeObserver & h' & effects & Hrender & Hmemo & Hr & Hw & _).
  exists resizeObserver, h', effects. cbn.
  unfold render_pass. rewrite Hrender.
  rewrite <- !list_fmap_compose. done.
Qed.

Lemma mount_pass_shape
    (error003 : string -> string) (getPositionWithOrigin : OriginArgs.t -> XYPosition)
    (rt : Runtime) (s : State.t) (nodeIds : list string) (props : NodeRendererProps.t) :
  exists (resizeObserver : optional positive) (effects : list effect),
    mount_pass error003 getPositionWithOrigin rt s nodeIds props
      = ((fun nodeId =>
            (NodeComponentWrapper error003 getPositionWithOrigin s
               (child_props props (selector s) resizeObserver nodeId)).1) <$> nodeIds,
         effects
           ++ concat ((fun nodeId =>
                (NodeComponentWrapper error003 getPositionWithOrigin s
                   (child_props props (selector s) resizeObserver nodeId)).2) <$> nodeIds))
    /\ reported effects = [] /\ store_writes effects = [].
Proof.
  destruct (NodeRenderer_shape rt initial_hooks s nodeIds props)
    as (resizeObserver & h' & effects & Hrender & _ & Hr & Hw & _).
  exists resizeObserver, effects.
  unfold mount_pass. rewrite Hrender.
  rewrite <- !list_fmap_compose. done.
Qed.

(** X1.  A pass renders one slot per id, in the order of the ids: [null]
    for an id the store has no record of, and otherwise an element whose
    key and whose [id] are the id of the record. *)
Theorem pass_one_slot_per_id
    (error003 : string -> string) (getPositionWithOrigin : OriginArgs.t -> XYPosition)
    (rt : Runtime) (h : Hooks.t) (s : State.t)
    (nodeIds : list string) (props : NodeRendererProps.t) :
  let slots := (render_pass error003 getPositionWithOrigin rt h s nodeIds props).1.2 in
  length slots = length nodeIds
  /\ forall (i : nat) (nodeId : string),
       nodeIds !! i = Some nodeId ->
       match State.nodeLookup s !! nodeId with
       | None => slots !! i = Some RenderNull
       | Some node =>
           exists component out,
             slots !! i = Some (RenderElement component (Node.id (obj_val node)) out)
             /\ WrapNodeProps.id out = Node.id (obj_val node)
       end.
Proof.
  destruct (render_pass_shape error003 getPositionWithOrigin rt h s nodeIds props)
    as (resizeObserver & h' & effects & Hpass & _).
  cbn in Hpass. rewrite Hpass. cbn. split; [by rewrite length_fmap |].
  intros i nodeId Hi. rewrite list_lookup_fmap, Hi. cbn.
  unfold NodeComponentWrapper, node_selector, get. cbn.
  destruct (State.nodeLookup s !! nodeId) as [node|]; [| done].
  by eexists _, _.
Qed.

(** X2.  In a pass, the element rendered for a node resolves its four
    capability flags against the flags the store holds, and is handed the
    observer the coordinator has cached. *)
Theorem pass_resolves_against_store
    (error003 : string -> string) (getPositionWithOrigin : OriginArgs.t -> XYPosition)
    (rt : Runtime) (h : Hooks.t) (s : State.t)
    (nodeIds : list string) (props : NodeRendererProps.t)
    (i : nat) (nodeId : string) (node : obj Node.t) :
  nodeIds !! i = Some nodeId ->
  State.nodeLookup s !! nodeId = Some node ->
  let pass := render_pass error003 getPositionWithOrigin rt h s nodeIds props in
  exists component key out,
    pass.1.2 !! i = Some (RenderElement component key out)
    /\ WrapNodeProps.isDraggable out
       = effective (Node.draggable (obj_val node)) (State.nodesDraggable s)
    /\ WrapNodeProps.isSelectable out
       = effective (Node.selectable (obj_val node)) (State.elementsSelectable s)
    /\ WrapNodeProps.isConnectable out
       = effective (Node.connectable (obj_val node)) (State.nodesConnectable s)
    /\ WrapNodeProps.isFocusable out
       = effective (Node.focusable (obj_val node)) (State.nodesFocusable s)
    /\ Hooks.memo pass.1.1 = Some (WrapNodeProps.resizeObserver out).
Proof.
  intros Hi Hnode pass. subst pass.
  destruct (render_pass_shape error003 getPositionWithOrigin rt h s nodeIds props)
    as (resizeObserver & h' & effects & Hpass & Hmemo & _).
  cbn in Hpass. rewrite Hpass. cbn.
  rewrite list_lookup_fmap, Hi. cbn.
  unfold NodeComponentWrapper, node_selector, get. cbn. rewrite Hnode.
  eexists _, _, _. split; [reflexivity |]. cbn.
  by rewrite !capability_effective.
Qed.

Lemma pass_resolves_against_store_witness :
  exists out,
    WrapNodeProps.isDraggable out = true
    /\ WrapNodeProps.resizeObserver out = Val 9%positive.
Proof.
  destruct (pass_resolves_against_store sample_error003 sample_getPositionWithOrigin
              {| ResizeObserver_defined := true; fresh_ref := 9%positive |}
              initial_hooks two_nodes ["n1"; "n2"] (sample_renderer_props Undefined)
              1 "n2" (Obj 6%positive (plain_node "n2")) eq_refl eq_refl)
    as (component & key & out & _ & Hd & _ & _ & _ & Hobserver).
  exists out. split; [exact Hd |].
  vm_compute in Hobserver. by injection Hobserver.
Defined.

Lemma wrapper_reported
    (error003 : string -> string) (getPositionWithOrigin : OriginArgs.t -> XYPosition)
    (s : State.t) (props : NodeRendererProps.t) (slice : Slice.t)
    (resizeObserver : optional positive) (nodeId : string) :
  reported (NodeComponentWrapper error003 getPositionWithOrigin s
              (child_props props slice resizeObserver nodeId)).2
    = match Slice.onError slice with
      | Val onError =>
          option_list (owed_report error003 (obj_val (NodeRendererProps.nodeTypes props))
                         onError s nodeId)
      | Undefined | Null => []
      end
  /\ store_writes (NodeComponentWrapper error003 getPositionWithOrigin s
                     (child_props props slice resizeObserver nodeId)).2 = [].
Proof.
  unfold NodeComponentWrapper, node_selector, owed_report, get. cbn.
  destruct (State.nodeLookup s !! nodeId) as [node|]; cbn;
    [| by destruct (Slice.onError slice)].
  destruct (read (obj_val (NodeRendererProps.nodeTypes props))
              (resolved_type (obj_val node)));
    cbn; by destruct (Slice.onError slice).
Qed.

(** X3.  When the tree mounts (outside [StrictMode]), the errors reported
    are, in the order of the ids, one per id whose record the store holds
    and at whose resolved type reading the registry finds nothing, each
    with the code ["003"] and the message for that type, sent to the error
    callback of the store; with no callback in the store nothing is
    reported.  The mount never writes to the store. *)
Theorem mount_reports_unknown_types
    (error003 : string -> string) (getPositionWithOrigin : OriginArgs.t -> XYPosition)
    (rt : Runtime) (s : State.t)
    (nodeIds : list string) (props : NodeRendererProps.t) :
  let effects := (mount_pass error003 getPositionWithOrigin rt s nodeIds props).2 in
  reported effects
    = match State.onError s with
      | Val onError =>
          omap (owed_report error003 (obj_val (NodeRendererProps.nodeTypes props))
                  onError s) nodeIds
      | Undefined | Null => []
      end
  /\ store_writes effects = [].
Proof.
  destruct (mount_pass_shape error003 getPositionWithOrigin rt s nodeIds props)
    as (resizeObserver & effects & Hpass & Hr & Hw).
  rewrite Hpass. clear Hpass. cbn [fst snd].
  unfold reported, store_writes in *. rewrite !omap_app, Hr, Hw. cbn [app].
  induction nodeIds as [|nodeId nodeIds [IHr IHw]].
  - by destruct (State.onError s).
  - rewrite !fmap_cons, !concat_cons, !omap_app, IHr, IHw.
    destruct (wrapper_reported error003 getPositionWithOrigin s props (selector s)
                resizeObserver nodeId) as [Hreported Hwrites].
    unfold reported, store_writes in Hreported, Hwrites.
    rewrite Hreported, Hwrites. cbn.
    destruct (State.onError s) as [| |onError]; try done.
    by destruct (owed_report _ _ _ _ _).
Qed.

(** On the two sample nodes: [n1] has the unknown type ["custom"], [n2]
    has no type, [n3] has no record. *)
Example mount_reports_sample :
  reported (mount_pass sample_error003 sample_getPositionWithOrigin
              {| ResizeObserver_defined := true; fresh_ref := 9%positive |}
              two_nodes ["n2"; "n3"; "n1"]
              (sample_renderer_props Undefined)).2
  = [(31%positive, "003", "Node type custom not found")].
Proof. reflexivity. Qed.

(** ** The staged map *)

Lemma Map_keys_set_eq {K V} `{EqDecision K} (m : list (K * V)) (k : K) (v : V) :
  Map_keys (Map_set m k v)
    = if decide (k ∈ Map_keys m) then Map_keys m else Map_keys m ++ [k].
Proof.
  unfold Map_keys. induction m as [|[k0 v0] m IH]; cbn.
  - rewrite decide_False; [done | apply not_elem_of_nil].
  - destruct (decide (k = k0)) as [->|Hne]; cbn.
    + rewrite decide_True; [done | apply list_elem_of_here].
    + rewrite IH. destruct (decide (k ∈ m.*1)) as [Hin|Hnot].
      * rewrite decide_True; [done | by apply list_elem_of_further].
      * rewrite decide_False; [done |].
        rewrite elem_of_cons. intros [?|?]; done.
Qed.

Lemma first_occurrences_snoc {A} `{EqDecision A} (l : list A) (a : A) :
  first_occurrences (l ++ [a])
    = if decide (a ∈ first_occurrences l) then first_occurrences l
      else first_occurrences l ++ [a].
Proof.
  unfold first_occurrences. rewrite reverse_snoc. cbn [remove_dups].
  destruct (decide_rel elem_of a (reverse l)) as [Hin|Hnot].
  - rewrite decide_True; [done |].
    by rewrite elem_of_reverse, elem_of_remove_dups.
  - rewrite decide_False.
    + by rewrite reverse_cons.
    + by rewrite elem_of_reverse, elem_of_remove_dups.
Qed.

Lemma Map_set_length {K V} `{EqDecision K} (m : list (K * V)) (k : K) (v : V) :
  length (Map_set m k v) <= S (length m).
Proof.
  induction m as [|[k0 v0] m IH]; cbn; [lia |].
  destruct (decide (k = k0)); cbn; lia.
Qed.

Lemma staged_fold_length (entries : list ResizeObserverEntry)
    (updates : list (optional string * Update.t)) :
  length (foldl stage updates entries) <= length updates + length entries.
Proof.
  revert updates. induction entries as [|entry entries IH]; intros updates; cbn; [lia |].
  etrans; [apply IH |]. unfold stage.
  pose proof (Map_set_length updates (getAttribute (target entry) "data-id")
    {| Update.id := getAttribute (target entry) "data-id";
       Update.nodeElement := target entry; Update.forceUpdate := true |}).
  lia.
Qed.

(** X4.  The map handed to the store lists the ids of the batch once
    each, in the order in which they first occur in the batch; it is never
    longer than the batch, and an empty batch gives an empty map. *)
Theorem staged_keys_in_first_occurrence_order (entries : list ResizeObserverEntry) :
  Map_keys (staged_updates entries) = first_occurrences (entry_ids entries)
  /\ length (staged_updates entries) <= length entries
  /\ (entries = [] <-> staged_updates entries = []).
Proof.
  assert (Hkeys : Map_keys (staged_updates entries) = first_occurrences (entry_ids entries)).
  { unfold staged_updates, entry_ids.
    induction entries as [|entry entries IH] using rev_ind; [done |].
    rewrite foldl_snoc, fmap_app.
    change ((fun e => getAttribute (target e) "data-id") <$> [entry])
      with [getAttribute (target entry) "data-id"].
    rewrite first_occurrences_snoc.
    unfold stage at 1. rewrite Map_keys_set_eq, IH. done. }
  split; [exact Hkeys |].
  split.
  - apply (staged_fold_length entries []).
  - split; [by intros -> |].
    intros Hempty. destruct entries as [|entry entries] using rev_ind; [done |].
    exfalso. unfold staged_updates in Hempty. rewrite foldl_snoc in Hempty.
    unfold stage in Hempty.
    destruct (foldl _ _ _) as [|[k0 v0] m]; cbn in Hempty; [done |].
    by destruct (decide _).
Qed.

(** ** The store writes of a life *)

Lemma run_with_observer_writes (o : positive) (f : fn_ref) (events : list event) :
  exists renders trace,
    run (hooks_with o f) events = (hooks_with o f, renders, trace)
    /\ Forall (fun write => write.1 = f) (store_writes trace)
    /\ length (store_writes trace) = measurements events.
Proof.
  induction events as [|e events (renders & trace & Hrun & Hall & Hlen)].
  - exists [], []. split_and!; [done | apply Forall_nil_2 | done].
  - destruct e as [rt s nodeIds props|entries]; cbn [run step]; cbn; rewrite Hrun.
    + eexists _, trace. split_and!; [reflexivity | done | done].
    + exists renders, (observer_callback f entries ++ trace).
      change (store_writes (observer_callback f entries ++ trace))
        with ((f, staged_updates entries) :: store_writes trace).
      split_and!; [reflexivity | by apply Forall_cons | by rewrite length_cons, Hlen].
Qed.

(** X8.  Over a whole life, the store is written to once per batch the
    observer delivers, and never when there is no observer; every write
    goes through the [updateNodeDimensions] the store held at the first
    render, whatever the store holds at later renders. *)
Theorem writes_use_first_updateNodeDimensions (rt : Runtime) (s : State.t)
    (nodeIds : list string) (props : NodeRendererProps.t) (events : list event) :
  let writes := store_writes (lifetime rt s nodeIds props events).2 in
  Forall (fun write => write.1 = State.updateNodeDimensions s) writes
  /\ length writes = if ResizeObserver_defined rt then measurements events else 0.
Proof.
  unfold lifetime. cbn [run step]. rewrite first_render.
  destruct (ResizeObserver_defined rt).
  - destruct (run_with_observer_writes (fresh_ref rt) (State.updateNodeDimensions s) events)
      as (renders & trace & -> & Hall & Hlen).
    cbn. unfold store_writes in *. rewrite omap_app. cbn.
    rewrite app_nil_r. done.
  - destruct (run_without_observer events) as (renders & -> & _).
    cbn. split; [apply Forall_nil_2 | done].
Qed.

(** ** What a wrapper reads *)

(** X7.  A render of the wrapper reads nothing of the store but the record
    of its own node: two stores that hold the same record for the id give
    the same element and the same effects, so replacing the record of
    another node leaves what the wrapper renders unchanged. *)
Theorem wrapper_reads_only_its_record
    (error003 : string -> string) (getPositionWithOrigin : OriginArgs.t -> XYPosition)
    (s : State.t) (props : Props.t) (other : string) (replacement : obj Node.t) :
  other <> Props.id props ->
  (forall s' : State.t,
     State.nodeLookup s' !! Props.id props = State.nodeLookup s !! Props.id props ->
     NodeComponentWrapper error003 getPositionWithOrigin s' props
       = NodeComponentWrapper error003 getPositionWithOrigin s props)
  /\ NodeComponentWrapper error003 getPositionWithOrigin
       (replace_node s other replacement) props
     = NodeComponentWrapper error003 getPositionWithOrigin s props.
Proof.
  intros Hother.
  assert (Hsame : forall s' : State.t,
    State.nodeLookup s' !! Props.id props = State.nodeLookup s !! Props.id props ->
    NodeComponentWrapper error003 getPositionWithOrigin s' props
      = NodeComponentWrapper error003 getPositionWithOrigin s props).
  { intros s' Hlookup. unfold NodeComponentWrapper, node_selector, get.
    by rewrite Hlookup. }
  split; [exact Hsame |].
  apply Hsame. cbn. by rewrite lookup_insert_ne.
Qed.

Lemma wrapper_reads_only_its_record_witness :
  let props := sample_props two_nodes Undefined "n1" in
  NodeComponentWrapper sample_error003 sample_getPositionWithOrigin
    (replace_node two_nodes "n2" n2_moved) props
  = NodeComponentWrapper sample_error003 sample_getPositionWithOrigin two_nodes props.
Proof.
  intros props.
  apply (wrapper_reads_only_its_record sample_error003 sample_getPositionWithOrigin
           two_nodes props "n2" n2_moved).
  discriminate.
Defined.

(** X11.  In a pass, the element rendered for a node is handed the
    coordinator's own props unchanged, each under its name at the visual
    component: the six callbacks, the two class names, the flow id and the
    keyboard switch. *)
Theorem pass_hands_down_coordinator_props
    (error003 : string -> string) (getPositionWithOrigin : OriginArgs.t -> XYPosition)
    (rt : Runtime) (h : Hooks.t) (s : State.t)
    (nodeIds : list string) (props : NodeRendererProps.t)
    (i : nat) (nodeId : string) (node : obj Node.t) :
  nodeIds !! i = Some nodeId ->
  State.nodeLookup s !! nodeId = Some node ->
  exists component key out,
    (render_pass error003 getPositionWithOrigin rt h s nodeIds props).1.2 !! i
      = Some (RenderElement component key out)
    /\ WrapNodeProps.onClick out = NodeRendererProps.onNodeClick props
    /\ WrapNodeProps.onDoubleClick out = NodeRendererProps.onNodeDoubleClick props
    /\ WrapNodeProps.onMouseEnter out = NodeRendererProps.onNodeMouseEnter props
    /\ WrapNodeProps.onMouseMove out = NodeRendererProps.onNodeMouseMove props
    /\ WrapNodeProps.onMouseLeave out = NodeRendererProps.onNodeMouseLeave props
    /\ WrapNodeProps.onContextMenu out = NodeRendererProps.onNodeContextMenu props
    /\ WrapNodeProps.noDragClassName out = NodeRendererProps.noDragClassName props
    /\ WrapNodeProps.noPanClassName out = NodeRendererProps.noPanClassName props
    /\ WrapNodeProps.rfId out = NodeRendererProps.rfId props
    /\ WrapNodeProps.disableKeyboardA11y out = NodeRendererProps.disableKeyboardA11y props.
Proof.
  intros Hi Hnode.
  destruct (render_pass_shape error003 getPositionWithOrigin rt h s nodeIds props)
    as (resizeObserver & h' & effects & Hpass & _).
  cbv zeta in Hpass. rewrite Hpass. cbn [fst snd].
  rewrite list_lookup_fmap, Hi. cbn.
  unfold NodeComponentWrapper, node_selector, get. cbn. rewrite Hnode.
  eexists _, _, _. split; [reflexivity |]. cbn. done.
Qed.

Lemma pass_hands_down_coordinator_props_witness :
  exists out,
    WrapNodeProps.noDragClassName out = Val "nodrag"
    /\ WrapNodeProps.rfId out = Val "1".
Proof.
  destruct (pass_hands_down_coordinator_props sample_error003 sample_getPositionWithOrigin
              {| ResizeObserver_defined := true; fresh_ref := 9%positive |}
              initial_hooks two_nodes ["n1"; "n2"] (sample_renderer_props Undefined)
              0 "n1" (Obj 5%positive n1) eq_refl eq_refl)
    as (component & key & out & _ & _ & _ & _ & _ & _ & _ & Hdrag & _ & Hrf & _).
  exists out. split; [exact Hdrag | exact Hrf].
Defined.
